(** * Canvas2d: the 2D annotation canvas of pixano-elements

    A shallow embedding of [packages/graphics-2d/src/pxn-canvas-2d.ts]:
    the shape collection, the selection held by the shapes manager, the
    keyboard handling, copy and paste, and the custom events dispatched to
    the host.  The element's state is threaded explicitly; the events it
    dispatches are recorded, oldest first, in the state. *)

From Stdlib Require Import List String Ascii ZArith Lia Bool Arith.
From Stdlib Require Import Decimal DecimalString.
Import ListNotations.

Set Warnings "-register-all".
Local Open Scope list_scope.

(** ** Values *)

(** A parsed JSON value, the result type of [JSON.parse].  A number is kept
    as a decimal [m * 10^e]; the canvas never computes with it.  The members
    of [JObj] are the own properties of the object in insertion order. *)
Inductive json : Type :=
| JNull
| JBool (b : bool)
| JNum (m e : Z)
| JStr (s : string)
| JArr (items : list json)
| JObj (members : list (string * json)).

(** [InteractiveMode = "edit" | "create" | "none"]. *)
Inductive InteractiveMode : Type := edit | create | none.

(** [ShapeData] of [./types]: an object with a string [id] and further own
    properties (geometry, category, ...), kept here in [props].  [ref] is
    the identity of the object: a JavaScript [Set] holds objects by
    reference, so two shapes are the same element exactly when they are the
    same object. *)
Record ShapeData : Type := {
  ref : nat;
  id : string;
  props : list (string * json)
}.

(** A JavaScript number as far as the index arithmetic of [onTabulation]
    goes: an integer, or [NaN] (the remainder by zero). *)
Inductive number : Type := Num (z : Z) | NaN.

(** [a % b] on integers: the remainder has the sign of the dividend, and
    the remainder by zero is [NaN]. *)
Definition js_rem (a b : Z) : number :=
  if (b =? 0)%Z then NaN else Num (Z.rem a b).

(** [a || b] on integer numbers: [0] is the only falsy integer. *)
Definition js_or (a b : Z) : Z :=
  if (a =? 0)%Z then b else a.

(** [arr[i]]: the element at an index inside the array, [undefined]
    ([None]) for a negative index, an index past the end or [NaN]. *)
Definition array_get {A : Type} (arr : list A) (i : number) : option A :=
  match i with
  | NaN => None
  | Num z => if (z <? 0)%Z then None else nth_error arr (Z.to_nat z)
  end.

(** [arr.findIndex(p)] counted from [from]: the index of the first element
    satisfying [p], [-1] when there is none. *)
Fixpoint findIndex_from {A : Type} (p : A -> bool) (arr : list A) (from : Z) : Z :=
  match arr with
  | [] => (-1)%Z
  | x :: rest => if p x then from else findIndex_from p rest (from + 1)%Z
  end.

Definition findIndex {A : Type} (p : A -> bool) (arr : list A) : Z :=
  findIndex_from p arr 0%Z.

(** [ids.includes(x)] on an array of strings. *)
Definition includes (ids : list string) (x : string) : bool :=
  existsb (String.eqb x) ids.

(** [s.substring(n)]: the string without its first [n] characters, empty
    when [s] has at most [n] of them. *)
Fixpoint substring_from (n : nat) (s : string) : string :=
  match n, s with
  | O, _ => s
  | S n', String _ rest => substring_from n' rest
  | S _, EmptyString => EmptyString
  end.

(** ** The observable set of [@pixano/core] *)

Module ObservableSet.

(** Modelled from the spec: the class [ObservableSet] of [@pixano/core]
    is not among the sources.  It is the spec's ObservableContainer, used
    by the canvas through the interface of a [Set]: the elements in
    insertion order, without repetition of an object. *)
Definition t : Type := list ShapeData.

(** Modelled from the spec: the event an [ObservableSet] passes to the
    observers registered with [observe], the kind of change and, for [add]
    and [delete], the affected item. *)
Record notification : Type := {
  prop : string;
  value : option ShapeData
}.

(** Modelled from the spec: the items of the set are objects, compared by
    identity. *)
Definition same_object (a b : ShapeData) : bool := ref a =? ref b.

(** Modelled from the spec: [has(item)] of [ObservableSet], membership of
    the object. *)
Definition has (s : t) (v : ShapeData) : bool :=
  existsb (same_object v) s.

(** Modelled from the spec: [size] of [ObservableSet]. *)
Definition size (s : t) : nat := List.length s.

(** Modelled from the spec: iteration over an [ObservableSet]; the spread
    [[...s]], [values()] and [forEach] visit the elements in insertion
    order. *)
Definition values (s : t) : list ShapeData := s.

(** Modelled from the spec: the content of the set after an item was
    added, at the end unless the set holds the object already. *)
Definition insert (s : t) (v : ShapeData) : t :=
  if has s v then s else s ++ [v].

(** Modelled from the spec: [add(item)] of [ObservableSet]; it emits
    exactly one event carrying the item and the kind [add]. *)
Definition add (v : ShapeData) (s : t) : t * notification :=
  (insert s v, {| prop := "add"; value := Some v |}).

(** Modelled from the spec: [delete(item)] of [ObservableSet]; it emits
    exactly one event carrying the item and the kind [delete]. *)
Definition delete (v : ShapeData) (s : t) : t * notification :=
  (filter (fun x => negb (same_object v x)) s,
   {| prop := "delete"; value := Some v |}).

(** Modelled from the spec: [set(items)] of [ObservableSet] replaces the
    whole content atomically and emits one [set] event. *)
Definition set (vs : list ShapeData) (s : t) : t * notification :=
  (fold_left insert vs [], {| prop := "set"; value := None |}).

(** Modelled from the spec: [clear()] of [ObservableSet] empties the set
    and emits [set] with the empty content. *)
Definition clear (s : t) : t * notification :=
  ([], {| prop := "set"; value := None |}).

End ObservableSet.

(** Modelled from the spec: [observable] of [@pixano/core] is not among the
    sources.  It makes the property changes of an object observable and
    leaves its properties as they are; the model gives the result the
    identity of its argument. *)
Definition observable (s : ShapeData) : ShapeData := s.

(** ** The element *)

(** The custom events of the element, named after their [type]. *)
Inductive CustomEvent : Type :=
| create_event (detail : ShapeData)
| update_event (detail : list string)
| delete_event (detail : list string)
| selection_event (detail : list string)
| mode_event (detail : InteractiveMode).

(** Modelled from the spec: what the shapes manager does to the selection
    when the collection notifies the deletion of a shape.  The manager is
    handed the collection when it is created, before the canvas registers
    its own observers, so its observer runs first.  Spec 4.2 has the engine
    remove the deleted shape from the selection ([deselect_deleted]); a
    manager may also leave the selection alone or empty it. *)
Inductive DeletionPolicy : Type :=
| keep_selection
| deselect_deleted
| clear_selection.

(** Modelled from the spec: the class [ShapesManager] is not among the
    sources.  The canvas reads its [targetShapes], the spec's SelectionSet,
    the observable set of the selected shapes; [onDelete] is the manager's
    part in a deletion.  Its drawing on the renderer, its [update] events
    and its [setMode] leave the state of the model as it is. *)
Record ShapesManager : Type := {
  targetShapes : ObservableSet.t;
  onDelete : DeletionPolicy
}.

(** A [KeyboardEvent], as far as [keyBinding] reads it. *)
Record KeyboardEvent : Type := {
  key : string;
  shiftKey : bool
}.

(** The state of a [Canvas2d] element and of the part of the JavaScript
    environment it acts on: [dispatched] lists the events passed to
    [dispatchEvent], oldest first; [allocated] counts the objects created so
    far (the next object gets this identity); [draws] counts the calls of
    [Math.random]. *)
Record Canvas2d : Type := {
  mode : InteractiveMode;
  _shapes : ObservableSet.t;
  shManager : ShapesManager;
  dispatched : list CustomEvent;
  allocated : nat;
  draws : nat
}.

(** What the element takes from the JavaScript environment: [JSON.parse]
    ([None] when it throws a [SyntaxError]), [JSON.stringify], and the
    outcome of the successive evaluations of [Math.random().toString(36)]. *)
Record Platform : Type := {
  JSON_parse : string -> option json;
  JSON_stringify : json -> string;
  Math_random_toString36 : nat -> string
}.

(** The exception a method of the element can end with. *)
Inductive exception : Type := SyntaxError.

(** How a call ends: normally, or by throwing; either way with the state
    reached. *)
Inductive completion : Type :=
| Normal (c : Canvas2d)
| Throw (e : exception) (c : Canvas2d).

Definition with_shapes (s : ObservableSet.t) (c : Canvas2d) : Canvas2d :=
  {| mode := mode c; _shapes := s; shManager := shManager c;
     dispatched := dispatched c; allocated := allocated c; draws := draws c |}.

Definition with_targetShapes (s : ObservableSet.t) (c : Canvas2d) : Canvas2d :=
  {| mode := mode c; _shapes := _shapes c;
     shManager := {| targetShapes := s; onDelete := onDelete (shManager c) |};
     dispatched := dispatched c; allocated := allocated c; draws := draws c |}.

(** [this.dispatchEvent(e)]. *)
Definition dispatchEvent (e : CustomEvent) (c : Canvas2d) : Canvas2d :=
  {| mode := mode c; _shapes := _shapes c; shManager := shManager c;
     dispatched := dispatched c ++ [e];
     allocated := allocated c; draws := draws c |}.

Definition notifyUpdate (ids : list string) : Canvas2d -> Canvas2d :=
  dispatchEvent (update_event ids).

Definition notifySelection (ids : list string) : Canvas2d -> Canvas2d :=
  dispatchEvent (selection_event ids).

Definition notifyCreate (obj : ShapeData) : Canvas2d -> Canvas2d :=
  dispatchEvent (create_event obj).

Definition notifyDelete (ids : list string) : Canvas2d -> Canvas2d :=
  dispatchEvent (delete_event ids).

(** The state [new Canvas2d()] starts from, with the manager of spec 4.2. *)
Definition new_Canvas2d : Canvas2d :=
  {| mode := edit; _shapes := [];
     shManager := {| targetShapes := []; onDelete := deselect_deleted |};
     dispatched := []; allocated := 0; draws := 0 |}.

(** [get shapes()]. *)
Definition shapes (c : Canvas2d) : ObservableSet.t := _shapes c.

(** [get selectedShapes()]. *)
Definition selectedShapes (c : Canvas2d) : list ShapeData :=
  ObservableSet.values (targetShapes (shManager c)).

(** [get selectedShapeIds()]. *)
Definition selectedShapeIds (c : Canvas2d) : list string :=
  map id (ObservableSet.values (targetShapes (shManager c))).

(** The two observers registered by [initShapeSetObserver]. *)
Definition targetShapes_observer (n : ObservableSet.notification)
    (c : Canvas2d) : Canvas2d :=
  if String.eqb (ObservableSet.prop n) "set" then c
  else notifySelection (map id (targetShapes (shManager c))) c.

Definition shapes_observer (n : ObservableSet.notification)
    (c : Canvas2d) : Canvas2d :=
  let c1 :=
    match String.eqb (ObservableSet.prop n) "add", ObservableSet.value n with
    | true, Some shape => notifyCreate shape c
    | _, _ => c
    end in
  match String.eqb (ObservableSet.prop n) "delete", ObservableSet.value n with
  | true, Some shape => notifyDelete [id shape] c1
  | _, _ => c1
  end.

(** The methods of the selection, each followed by the synchronous call of
    the observer the canvas registered on it. *)
Definition targetShapes_add (v : ShapeData) (c : Canvas2d) : Canvas2d :=
  let (s, n) := ObservableSet.add v (targetShapes (shManager c)) in
  targetShapes_observer n (with_targetShapes s c).

Definition targetShapes_delete (v : ShapeData) (c : Canvas2d) : Canvas2d :=
  let (s, n) := ObservableSet.delete v (targetShapes (shManager c)) in
  targetShapes_observer n (with_targetShapes s c).

Definition targetShapes_set (vs : list ShapeData) (c : Canvas2d) : Canvas2d :=
  let (s, n) := ObservableSet.set vs (targetShapes (shManager c)) in
  targetShapes_observer n (with_targetShapes s c).

Definition targetShapes_clear (c : Canvas2d) : Canvas2d :=
  let (s, n) := ObservableSet.clear (targetShapes (shManager c)) in
  targetShapes_observer n (with_targetShapes s c).

(** Modelled from the spec: the observer of the collection that belongs to
    the shapes manager.  At a deletion it acts on the selection as its
    [onDelete] says, through the methods of the selection; at an addition
    and at a replacement it draws, which the model takes to return normally
    and to leave the state as it is. *)
Definition manager_shapes_observer (n : ObservableSet.notification)
    (c : Canvas2d) : Canvas2d :=
  match String.eqb (ObservableSet.prop n) "delete", ObservableSet.value n with
  | true, Some shape =>
    match onDelete (shManager c) with
    | keep_selection => c
    | deselect_deleted => targetShapes_delete shape c
    | clear_selection => targetShapes_clear c
    end
  | _, _ => c
  end.

(** The methods of the collection, each followed by the synchronous calls
    of its observers in the order of their registration: the manager's,
    then the one of the canvas. *)
Definition shapes_add (v : ShapeData) (c : Canvas2d) : Canvas2d :=
  let (s, n) := ObservableSet.add v (_shapes c) in
  shapes_observer n (manager_shapes_observer n (with_shapes s c)).

Definition shapes_delete (v : ShapeData) (c : Canvas2d) : Canvas2d :=
  let (s, n) := ObservableSet.delete v (_shapes c) in
  shapes_observer n (manager_shapes_observer n (with_shapes s c)).

Definition shapes_set (vs : list ShapeData) (c : Canvas2d) : Canvas2d :=
  let (s, n) := ObservableSet.set vs (_shapes c) in
  shapes_observer n (manager_shapes_observer n (with_shapes s c)).

(** [set selectedShapeIds(ids)]. *)
Definition set_selectedShapeIds (ids : list string) (c : Canvas2d) : Canvas2d :=
  let shapes := filter (fun s => includes ids (id s))
                       (ObservableSet.values (shapes c)) in
  targetShapes_set shapes c.

(** [set shapes(value)]. *)
Definition set_shapes (value : list ShapeData) (c : Canvas2d) : Canvas2d :=
  shapes_set (map observable value) c.

(** The index [onTabulation] moves to from [currIdx] in an array of [len]
    shapes: [(currIdx + 1 + len) % len] with the shift key,
    [(currIdx - 1 + len) % len] without. *)
Definition next_index (shift : bool) (currIdx len : Z) : number :=
  if shift then js_rem (currIdx + 1 + len) len
  else js_rem (currIdx - 1 + len) len.

(** [onTabulation(event)]; [event.preventDefault()] acts on the event only. *)
Definition onTabulation (event : KeyboardEvent) (c : Canvas2d) : Canvas2d :=
  match mode c with
  | create => c
  | _ =>
    let shapes := ObservableSet.values (shapes c) in
    let currIdx :=
      js_or (findIndex (fun s => ObservableSet.has (targetShapes (shManager c)) s)
                       shapes) 0 in
    let len := Z.of_nat (List.length shapes) in
    let nextIdx := next_index (shiftKey event) currIdx len in
    match array_get shapes nextIdx with
    | Some nextShape => targetShapes_set [nextShape] c
    | None => c
    end
  end.

(** [targetShapes.forEach((s) => this.shapes.delete(s))]: [forEach] goes
    through the live selection in insertion order, so a shape that left the
    selection before its turn is not visited.  [pending] holds the selected
    shapes not reached yet. *)
Fixpoint delete_selected (pending : list ShapeData) (c : Canvas2d) : Canvas2d :=
  match pending with
  | [] => c
  | s :: rest =>
    if ObservableSet.has (targetShapes (shManager c)) s
    then delete_selected rest (shapes_delete s c)
    else delete_selected rest c
  end.

(** [keyBinding(evt)], the cases of this class; [super.keyBinding] belongs
    to the parent [Canvas] and acts on the view. *)
Definition keyBinding (event : KeyboardEvent) (c : Canvas2d) : Canvas2d :=
  if String.eqb (key event) "Tab" then onTabulation event c
  else if String.eqb (key event) "Delete" then
    targetShapes_clear
      (delete_selected (ObservableSet.values (targetShapes (shManager c))) c)
  else if String.eqb (key event) "Escape" then targetShapes_clear c
  else c.

(** ** Copy and paste *)

(** The decimal name of an array index, as a property key. *)
Definition index_key (n : nat) : string :=
  NilZero.string_of_uint (Nat.to_uint n).

Fixpoint indexed {A : Type} (from : nat) (l : list A) : list (string * A) :=
  match l with
  | [] => []
  | x :: rest => (index_key from, x) :: indexed (S from) rest
  end.

Fixpoint characters (s : string) : list json :=
  match s with
  | EmptyString => []
  | String ch rest => JStr (String ch EmptyString) :: characters rest
  end.

(** The own enumerable properties a spread [{...v}] copies: the members of
    an object, the indexed elements of an array, the indexed characters of a
    string, nothing for [null], a boolean or a number. *)
Definition own_properties (v : json) : list (string * json) :=
  match v with
  | JObj members => members
  | JArr items => indexed 0 items
  | JStr s => indexed 0 (characters s)
  | _ => []
  end.

(** The properties other than [id]. *)
Definition other_properties (members : list (string * json)) : list (string * json) :=
  filter (fun kv => negb (String.eqb (fst kv) "id")) members.

(** What [JSON.stringify] serialises of a shape: its [id] and its other
    properties. *)
Definition json_of_shape (s : ShapeData) : json :=
  JObj (("id"%string, JStr (id s)) :: props s).

Section WithPlatform.

Variable env : Platform.

(** [onCopy()]: [None] is the [undefined] returned when nothing is
    selected. *)
Definition onCopy (c : Canvas2d) : option string :=
  match ObservableSet.size (targetShapes (shManager c)) with
  | O => None
  | S _ =>
    Some (JSON_stringify env
            (JArr (map json_of_shape
                       (ObservableSet.values (targetShapes (shManager c))))))
  end.

(** The body of the [forEach] of [onPaste]: a new object
    [{...v, id: Math.random().toString(36).substring(7)}], made observable
    and added to the shapes. *)
Definition paste_value (c : Canvas2d) (v : json) : Canvas2d :=
  let shape := observable
    {| ref := allocated c;
       id := substring_from 7 (Math_random_toString36 env (draws c));
       props := other_properties (own_properties v) |} in
  shapes_add shape
    {| mode := mode c; _shapes := _shapes c; shManager := shManager c;
       dispatched := dispatched c;
       allocated := S (allocated c); draws := S (draws c) |}.

(** [onPaste(text)]. *)
Definition onPaste (text : string) (c : Canvas2d) : completion :=
  match JSON_parse env text with
  | None => Throw SyntaxError c
  | Some value =>
    match value with
    | JArr items => Normal (fold_left paste_value items c)
    | _ => Normal c
    end
  end.

(** The operations a host performs on the element. *)
Inductive operation : Type :=
| AddShape (shape : ShapeData)
| Paste (text : string)
| Key (event : KeyboardEvent)
| SetSelectedShapeIds (ids : list string)
| SetShapes (value : list ShapeData).

Definition perform (op : operation) (c : Canvas2d) : completion :=
  match op with
  | AddShape shape => Normal (shapes_add shape c)
  | Paste text => onPaste text c
  | Key event => Normal (keyBinding event c)
  | SetSelectedShapeIds ids => Normal (set_selectedShapeIds ids c)
  | SetShapes value => Normal (set_shapes value c)
  end.

End WithPlatform.

(** The state a call ends in. *)
Definition final_state (r : completion) : Canvas2d :=
  match r with
  | Normal c => c
  | Throw _ c => c
  end.

(** ** A JSON codec to run the model

    An instance of [JSON.parse] and [JSON.stringify] on byte strings, used
    to evaluate the element on concrete clipboard texts. *)

Module JSON.

Local Open Scope string_scope.

(** The double quote, character 34. *)
Abbreviation dquote := (Ascii false true false false false true false false).

Definition is_space (ch : ascii) : bool :=
  match nat_of_ascii ch with
  | 9 | 10 | 13 | 32 => true
  | _ => false
  end.

Fixpoint skip_space (s : string) : string :=
  match s with
  | String ch rest => if is_space ch then skip_space rest else s
  | EmptyString => s
  end.

Definition digit_value (ch : ascii) : option Z :=
  let n := nat_of_ascii ch in
  if andb (48 <=? n)%nat (n <=? 57)%nat then Some (Z.of_nat (n - 48)) else None.

(** The digits at the head of [s]: their value continuing [acc], their
    number, and the rest. *)
Fixpoint digits (s : string) (acc : Z) (count : nat) : Z * nat * string :=
  match s with
  | String ch rest =>
    match digit_value ch with
    | Some d => digits rest (10 * acc + d)%Z (S count)
    | None => (acc, count, s)
    end
  | EmptyString => (acc, count, s)
  end.

Definition hex_value (ch : ascii) : option nat :=
  let n := nat_of_ascii ch in
  if andb (48 <=? n)%nat (n <=? 57)%nat then Some (n - 48)
  else if andb (97 <=? n)%nat (n <=? 102)%nat then Some (n - 87)
  else if andb (65 <=? n)%nat (n <=? 70)%nat then Some (n - 55)
  else None.

Definition hex_digit (n : nat) : ascii :=
  if (n <? 10)%nat then ascii_of_nat (48 + n) else ascii_of_nat (87 + n).

(** The characters of a string literal after its opening quote, up to the
    closing quote.  An escape [\uXXXX] is read when it names a byte. *)
Fixpoint string_body (fuel : nat) (s : string) : option (string * string) :=
  match fuel with
  | O => None
  | S fuel' =>
    match s with
    | String dquote rest => Some (EmptyString, rest)
    | String "\"%char (String e rest) =>
      let continue (ch : ascii) (r : string) :=
        match string_body fuel' r with
        | Some (body, r') => Some (String ch body, r')
        | None => None
        end in
      match e with
      | dquote => continue dquote rest
      | "\"%char => continue "\"%char rest
      | "/"%char => continue "/"%char rest
      | "b"%char => continue (ascii_of_nat 8) rest
      | "f"%char => continue (ascii_of_nat 12) rest
      | "n"%char => continue (ascii_of_nat 10) rest
      | "r"%char => continue (ascii_of_nat 13) rest
      | "t"%char => continue (ascii_of_nat 9) rest
      | "u"%char =>
        match rest with
        | String h1 (String h2 (String h3 (String h4 rest'))) =>
          match hex_value h1, hex_value h2, hex_value h3, hex_value h4 with
          | Some 0, Some 0, Some a, Some b =>
            continue (ascii_of_nat (16 * a + b)) rest'
          | _, _, _, _ => None
          end
        | _ => None
        end
      | _ => None
      end
    | String ch rest =>
      if (nat_of_ascii ch <? 32)%nat then None
      else
        match string_body fuel' rest with
        | Some (body, r') => Some (String ch body, r')
        | None => None
        end
    | EmptyString => None
    end
  end.

(** A number literal: an optional minus sign, the integer part without a
    superfluous leading zero, an optional fraction, an optional exponent. *)
Definition number_literal (s : string) : option (json * string) :=
  let (negative, s1) :=
    match s with
    | String "-"%char rest => (true, rest)
    | _ => (false, s)
    end in
  let '(int_part, int_count, s2) := digits s1 0%Z 0 in
  let leading_zero :=
    match s1 with
    | String "0"%char _ => Nat.ltb 1 int_count
    | _ => false
    end in
  if orb (Nat.eqb int_count 0) leading_zero then None
  else
    let fraction :=
      match s2 with
      | String "."%char rest =>
        let '(m, count, s3) := digits rest int_part 0 in
        if Nat.eqb count 0 then None else Some (m, count, s3)
      | _ => Some (int_part, 0, s2)
      end in
    match fraction with
    | None => None
    | Some (m, frac_count, s3) =>
      let signed := if negative then (- m)%Z else m in
      let exponent :=
        match s3 with
        | String ch rest =>
          if orb (Ascii.eqb ch "e") (Ascii.eqb ch "E") then
            let (exp_negative, s4) :=
              match rest with
              | String "-"%char r => (true, r)
              | String "+"%char r => (false, r)
              | _ => (false, rest)
              end in
            let '(x, count, s5) := digits s4 0%Z 0 in
            if Nat.eqb count 0 then None
            else Some ((if exp_negative then - x else x)%Z, s5)
          else Some (0%Z, s3)
        | EmptyString => Some (0%Z, s3)
        end in
      match exponent with
      | None => None
      | Some (x, s5) => Some (JNum signed (x - Z.of_nat frac_count), s5)
      end
    end.

Fixpoint starts_with (prefix s : string) : option string :=
  match prefix, s with
  | EmptyString, _ => Some s
  | String a prefix', String b s' =>
    if Ascii.eqb a b then starts_with prefix' s' else None
  | String _ _, EmptyString => None
  end.

(** A later member of the same name replaces the value of the earlier. *)
Fixpoint set_member (k : string) (v : json) (members : list (string * json))
    : list (string * json) :=
  match members with
  | [] => [(k, v)]
  | (k', v') :: rest =>
    if String.eqb k k' then (k', v) :: rest
    else (k', v') :: set_member k v rest
  end.

Fixpoint parse_value (fuel : nat) (s : string) : option (json * string) :=
  match fuel with
  | O => None
  | S fuel' =>
    match skip_space s with
    | String "n"%char rest =>
      option_map (fun r => (JNull, r)) (starts_with "ull" rest)
    | String "t"%char rest =>
      option_map (fun r => (JBool true, r)) (starts_with "rue" rest)
    | String "f"%char rest =>
      option_map (fun r => (JBool false, r)) (starts_with "alse" rest)
    | String dquote rest =>
      option_map (fun '(body, r) => (JStr body, r))
                 (string_body (S (String.length rest)) rest)
    | String "["%char rest =>
      match skip_space rest with
      | String "]"%char r => Some (JArr [], r)
      | _ => option_map (fun '(items, r) => (JArr items, r))
                        (parse_elements fuel' rest)
      end
    | String "{"%char rest =>
      match skip_space rest with
      | String "}"%char r => Some (JObj [], r)
      | _ => option_map (fun '(members, r) => (JObj members, r))
                        (parse_members fuel' rest [])
      end
    | other => number_literal other
    end
  end
with parse_elements (fuel : nat) (s : string) : option (list json * string) :=
  match fuel with
  | O => None
  | S fuel' =>
    match parse_value fuel' s with
    | Some (v, r) =>
      match skip_space r with
      | String ","%char r' =>
        option_map (fun '(items, r'') => (v :: items, r''))
                   (parse_elements fuel' r')
      | String "]"%char r' => Some ([v], r')
      | _ => None
      end
    | None => None
    end
  end
with parse_members (fuel : nat) (s : string) (acc : list (string * json))
    : option (list (string * json) * string) :=
  match fuel with
  | O => None
  | S fuel' =>
    match skip_space s with
    | String dquote rest =>
      match string_body (S (String.length rest)) rest with
      | Some (k, r) =>
        match skip_space r with
        | String ":"%char r1 =>
          match parse_value fuel' r1 with
          | Some (v, r2) =>
            match skip_space r2 with
            | String ","%char r3 => parse_members fuel' r3 (set_member k v acc)
            | String "}"%char r3 => Some (set_member k v acc, r3)
            | _ => None
            end
          | None => None
          end
        | _ => None
        end
      | None => None
      end
    | _ => None
    end
  end.

(** [JSON.parse(text)]: one value, surrounded by optional white space. *)
Definition parse (text : string) : option json :=
  match parse_value (S (String.length text)) text with
  | Some (v, rest) =>
    match skip_space rest with
    | EmptyString => Some v
    | _ => None
    end
  | None => None
  end.

Definition print_Z (z : Z) : string := NilZero.string_of_int (Z.to_int z).

Fixpoint escape (s : string) : string :=
  match s with
  | EmptyString => EmptyString
  | String ch rest =>
    let n := nat_of_ascii ch in
    let tail := escape rest in
    if Nat.eqb n 34 then String "\" (String dquote tail)
    else if Nat.eqb n 92 then String "\" (String "\" tail)
    else if Nat.eqb n 8 then String "\" (String "b" tail)
    else if Nat.eqb n 12 then String "\" (String "f" tail)
    else if Nat.eqb n 10 then String "\" (String "n" tail)
    else if Nat.eqb n 13 then String "\" (String "r" tail)
    else if Nat.eqb n 9 then String "\" (String "t" tail)
    else if (n <? 32)%nat then
      "\u00" ++ String (hex_digit (n / 16)) (String (hex_digit (n mod 16)) tail)
    else String ch tail
  end.

Definition quote (s : string) : string :=
  String dquote (escape s ++ String dquote EmptyString).

Fixpoint join (sep : string) (parts : list string) : string :=
  match parts with
  | [] => EmptyString
  | [p] => p
  | p :: rest => p ++ sep ++ join sep rest
  end.

(** [JSON.stringify(value)], without white space. *)
Fixpoint stringify (v : json) : string :=
  match v with
  | JNull => "null"
  | JBool true => "true"
  | JBool false => "false"
  | JNum m e =>
    if (e =? 0)%Z then print_Z m else print_Z m ++ "e" ++ print_Z e
  | JStr s => quote s
  | JArr items => "[" ++ join "," (map stringify items) ++ "]"
  | JObj members =>
    "{" ++ join ","
             (map (fun kv : string * json =>
                     let (k, x) := kv in quote k ++ ":" ++ stringify x)
                  members)
        ++ "}"
  end.

End JSON.

(** The platform with this codec and the given outcomes of
    [Math.random().toString(36)]. *)
Definition platform (random : nat -> string) : Platform :=
  {| JSON_parse := JSON.parse;
     JSON_stringify := JSON.stringify;
     Math_random_toString36 := random |}.

(** ** Predicates of the claims *)

(** Every selected shape is an element of the shape collection. *)
Definition selection_in_collection (c : Canvas2d) : bool :=
  forallb (ObservableSet.has (shapes c)) (selectedShapes c).

(** No object occurs twice in the set. *)
Definition distinct_objects (s : ObservableSet.t) : Prop :=
  NoDup (map ref s).

(** Every shape of the collection was created before the current
    allocation point, so that the next object created is a new one. *)
Definition objects_allocated (c : Canvas2d) : bool :=
  forallb (fun s => ref s <? allocated c) (_shapes c).

(** The shapes a paste of [items] creates, the first with identity [a] and
    the outcome number [d] of [Math.random]. *)
Fixpoint pasted (env : Platform) (a d : nat) (items : list json) : list ShapeData :=
  match items with
  | [] => []
  | v :: rest =>
    {| ref := a;
       id := substring_from 7 (Math_random_toString36 env d);
       props := other_properties (own_properties v) |}
    :: pasted env (S a) (S d) rest
  end.

(** The state after those shapes were appended to the collection, each with
    its [create] event. *)
Definition after_paste (env : Platform) (items : list json) (c : Canvas2d) : Canvas2d :=
  {| mode := mode c;
     _shapes := _shapes c ++ pasted env (allocated c) (draws c) items;
     shManager := shManager c;
     dispatched := dispatched c ++
                   map create_event (pasted env (allocated c) (draws c) items);
     allocated := allocated c + List.length items;
     draws := draws c + List.length items |}.

(** The state with the element of the collection at index [j] as the only
    selected shape. *)
Definition select_nth (j : nat) (c : Canvas2d) : Canvas2d :=
  match nth_error (_shapes c) j with
  | Some x => with_targetShapes [x] c
  | None => c
  end.

(** The [delete] events among the dispatched events. *)
Definition delete_events (events : list CustomEvent) : list (list string) :=
  flat_map (fun e => match e with delete_event ids => [ids] | _ => [] end) events.

(** The [selection] events among the dispatched events. *)
Definition selection_events (events : list CustomEvent) : list (list string) :=
  flat_map (fun e => match e with selection_event ids => [ids] | _ => [] end) events.

(** The key presses of the claims. *)
Definition Tab : KeyboardEvent := {| key := "Tab"; shiftKey := false |}.
Definition ShiftTab : KeyboardEvent := {| key := "Tab"; shiftKey := true |}.
Definition Delete : KeyboardEvent := {| key := "Delete"; shiftKey := false |}.
Definition Escape : KeyboardEvent := {| key := "Escape"; shiftKey := false |}.

(** ** Example states *)

(** Outcomes of [Math.random().toString(36)] with different endings. *)
Definition example_random (k : nat) : string :=
  nth k ["0.8w3xrk2j4f9"; "0.c5m0p7h3xq2"; "0.ze4n81tqa6d";
         "0.4kd92s0bwy5"; "0.1b7qzs6u0ve"]%string "0.i"%string.

(** Two different outcomes that agree from the eighth character on. *)
Definition colliding_random (k : nat) : string :=
  nth k ["0.8w3xrk2j4f9"; "0.1b7qzk2j4f9"]%string "0.i"%string.

Definition example_env : Platform := platform example_random.

Definition colliding_env : Platform := platform colliding_random.

(** The payload of a rectangle: its geometry and a category. *)
Definition rectangle : json :=
  JObj [("geometry"%string,
         JObj [("type"%string, JStr "rectangle");
               ("vertices"%string,
                JArr [JNum 1 (-1); JNum 2 (-1); JNum 5 (-1); JNum 6 (-1)])]);
        ("category"%string, JStr "car")].

(** A canvas into which five rectangles were pasted. *)
Definition five_shapes : Canvas2d :=
  final_state
    (onPaste example_env
       (JSON.stringify (JArr [rectangle; rectangle; rectangle; rectangle; rectangle]))
       new_Canvas2d).

(** The same canvas with its first and third shape selected. *)
Definition two_selected : Canvas2d :=
  set_selectedShapeIds ["k2j4f9"; "1tqa6d"]%string five_shapes.

(** A canvas into which one rectangle was pasted, then selected, with the
    colliding outcomes of [Math.random]. *)
Definition one_selected : Canvas2d :=
  set_selectedShapeIds ["k2j4f9"]%string
    (final_state
       (onPaste colliding_env (JSON.stringify (JArr [rectangle])) new_Canvas2d)).

(** The shapes the [forEach] of the Delete key visits, and deletes from the
    collection, of the [pending] ones. *)
Fixpoint visited (pending : list ShapeData) (c : Canvas2d) : list ShapeData :=
  match pending with
  | [] => []
  | s :: rest =>
    if ObservableSet.has (targetShapes (shManager c)) s
    then s :: visited rest (shapes_delete s c)
    else visited rest c
  end.



(** [notifyMode(mode)]: the assignment to [this.mode] and the [mode] event
    with the new mode as detail. *)
Definition notifyMode (m : InteractiveMode) (c : Canvas2d) : Canvas2d :=
  dispatchEvent (mode_event m)
    {| mode := m; _shapes := _shapes c; shManager := shManager c;
       dispatched := dispatched c; allocated := allocated c; draws := draws c |}.

(** The shapes of the collection added after the first [n]. *)
Definition added_after (n : nat) (c : Canvas2d) : list ShapeData :=
  skipn n (shapes c).

(** The canvas of five shapes switched to the mode [create]. *)
Definition creating : Canvas2d := notifyMode create five_shapes.

(** The canvas with two selected shapes after its collection was replaced
    by two other shapes: the selection holds none of them. *)
Definition replaced : Canvas2d :=
  set_shapes [ {| ref := 10; id := "a"; props := [] |};
               {| ref := 11; id := "b"; props := [] |} ] two_selected.

(** The canvas of five shapes with its fourth and its second shape
    selected. *)
Definition middle_selected : Canvas2d :=
  set_selectedShapeIds ["s0bwy5"; "7h3xq2"]%string five_shapes.

(** The second of the five pasted rectangles. *)
Definition second_rectangle : ShapeData :=
  {| ref := 1; id := "7h3xq2"; props := own_properties rectangle |}.

(** Decides that the objects of a given set are distinct. *)
Ltac distinct_refs :=
  unfold distinct_objects; vm_compute;
  repeat (constructor; [simpl; intuition discriminate |]); constructor.

(** ** The methods of the sets, unfolded *)

Lemma shapes_add_eq v c :
  shapes_add v c =
  notifyCreate v (with_shapes (ObservableSet.insert (_shapes c) v) c).
Proof. reflexivity. Qed.

Lemma shapes_set_eq vs c :
  shapes_set vs c = with_shapes (fold_left ObservableSet.insert vs []) c.
Proof. reflexivity. Qed.

Lemma targetShapes_set_eq vs c :
  targetShapes_set vs c =
  with_targetShapes (fold_left ObservableSet.insert vs []) c.
Proof. reflexivity. Qed.

Lemma targetShapes_clear_eq c :
  targetShapes_clear c = with_targetShapes [] c.
Proof. reflexivity. Qed.

Lemma targetShapes_add_eq v c :
  targetShapes_add v c =
  let s := ObservableSet.insert (targetShapes (shManager c)) v in
  notifySelection (map id s) (with_targetShapes s c).
Proof. reflexivity. Qed.

Lemma targetShapes_delete_eq v c :
  targetShapes_delete v c =
  let s := filter (fun x => negb (ObservableSet.same_object v x))
                  (targetShapes (shManager c)) in
  notifySelection (map id s) (with_targetShapes s c).
Proof. reflexivity. Qed.

(** ** Membership in an observable set *)

Module SetFacts.
Import ObservableSet.

Lemma same_object_refl v : same_object v v = true.
Proof. apply Nat.eqb_refl. Qed.

Lemma has_same s x y : same_object x y = true -> has s x = has s y.
Proof.
  unfold same_object. intros E. apply Nat.eqb_eq in E.
  unfold has, same_object. rewrite E. reflexivity.
Qed.

Lemma In_has s x : In x s -> has s x = true.
Proof.
  intros H. apply existsb_exists. exists x. split; [exact H | apply same_object_refl].
Qed.

Lemma has_app s1 s2 x : has (s1 ++ s2) x = has s1 x || has s2 x.
Proof. apply existsb_app. Qed.

Lemma has_insert s v x : has (insert s v) x = has s x || same_object x v.
Proof.
  unfold insert. destruct (has s v) eqn:Hv.
  - destruct (same_object x v) eqn:E.
    + rewrite (has_same s x v E), Hv. reflexivity.
    + rewrite orb_false_r. reflexivity.
  - rewrite has_app. simpl. rewrite orb_false_r. reflexivity.
Qed.

Lemma has_fold_insert vs : forall acc x,
  has (fold_left insert vs acc) x = has acc x || existsb (same_object x) vs.
Proof.
  induction vs as [|v vs IH]; intros acc x; simpl.
  - rewrite orb_false_r. reflexivity.
  - rewrite IH, has_insert, orb_assoc. reflexivity.
Qed.

Lemma In_insert s v x : In x (insert s v) -> In x s \/ x = v.
Proof.
  unfold insert. destruct (has s v).
  - auto.
  - intros H. apply in_app_or in H. destruct H as [H | [H | []]]; auto.
Qed.

Lemma In_fold_insert vs : forall acc x,
  In x (fold_left insert vs acc) -> In x acc \/ In x vs.
Proof.
  induction vs as [|v vs IH]; intros acc x H; simpl in *.
  - auto.
  - apply IH in H. destruct H as [H | H]; [| auto].
    apply In_insert in H. destruct H as [H | H]; auto.
Qed.

Lemma insert_new s v : has s v = false -> insert s v = s ++ [v].
Proof. unfold insert. intros ->. reflexivity. Qed.

(** Inserting the elements of a list without repetition into the empty
    set gives that list. *)
Lemma fold_insert_distinct vs : forall acc,
  distinct_objects (acc ++ vs) ->
  fold_left insert vs acc = acc ++ vs.
Proof.
  induction vs as [|v vs IH]; intros acc H; simpl.
  - rewrite app_nil_r. reflexivity.
  - assert (Hv : has acc v = false).
    { unfold distinct_objects in H. rewrite map_app in H. simpl in H.
      apply NoDup_remove_2 in H.
      destruct (has acc v) eqn:E; [| reflexivity].
      exfalso. apply H. apply existsb_exists in E.
      destruct E as [y [Hy E]]. apply Nat.eqb_eq in E.
      apply in_or_app. left. rewrite E. apply in_map. exact Hy. }
    rewrite (insert_new _ _ Hv).
    rewrite IH; rewrite <- app_assoc; simpl; [reflexivity | exact H].
Qed.

(** The methods of the set keep its objects distinct. *)
Lemma distinct_insert s v : distinct_objects s -> distinct_objects (insert s v).
Proof.
  unfold insert. destruct (has s v) eqn:E; [auto |].
  unfold distinct_objects. intros D. rewrite map_app. simpl.
  apply NoDup_app; [exact D | repeat constructor; auto |].
  intros a Ha [<- | []].
  apply in_map_iff in Ha. destruct Ha as [y [Ey Hy]].
  assert (has s v = true); [| congruence].
  apply existsb_exists. exists y. split; [exact Hy |].
  unfold same_object. rewrite Ey. apply Nat.eqb_refl.
Qed.

Lemma distinct_fold_insert vs : forall acc,
  distinct_objects acc -> distinct_objects (fold_left insert vs acc).
Proof.
  induction vs as [|v vs IH]; intros acc D; simpl; [exact D |].
  apply IH. apply distinct_insert. exact D.
Qed.

Lemma distinct_filter p s : distinct_objects s -> distinct_objects (filter p s).
Proof.
  unfold distinct_objects. induction s as [|x s IH]; simpl; intros H.
  - constructor.
  - inversion H as [|? ? Hx Hs]; subst.
    destruct (p x); simpl; [| auto].
    constructor; [| auto].
    intros Hin. apply Hx. apply in_map_iff in Hin.
    destruct Hin as [y [Ey Hy]]. apply filter_In in Hy.
    rewrite <- Ey. apply in_map. tauto.
Qed.

End SetFacts.

(** ** What the operations leave untouched *)

Lemma paste_value_selection env c v :
  shManager (paste_value env c v) = shManager c.
Proof. reflexivity. Qed.

Lemma paste_fold_selection env items : forall c,
  shManager (fold_left (paste_value env) items c) = shManager c.
Proof.
  induction items as [|v items IH]; intros c; simpl; [reflexivity |].
  rewrite IH. apply paste_value_selection.
Qed.

Lemma paste_fold_keeps env items : forall c s,
  ObservableSet.has (_shapes c) s = true ->
  ObservableSet.has (_shapes (fold_left (paste_value env) items c)) s = true.
Proof.
  induction items as [|v items IH]; intros c s H; simpl; [exact H |].
  apply IH. simpl. rewrite SetFacts.has_insert, H. reflexivity.
Qed.


Lemma delete_events_of_deletions (l : list ShapeData) :
  delete_events (map (fun s => delete_event [id s]) l) = map (fun s => [id s]) l.
Proof.
  induction l as [|x l IH]; simpl; [reflexivity |]. rewrite <- IH. reflexivity.
Qed.

(** ** A deletion and the Delete key *)

Lemma shapes_delete_shapes v c :
  _shapes (shapes_delete v c) =
  filter (fun x => negb (ObservableSet.same_object v x)) (_shapes c).
Proof.
  destruct c as [m sh [sel policy] events a d]. destruct policy; reflexivity.
Qed.

Lemma shapes_delete_mode v c : mode (shapes_delete v c) = mode c.
Proof.
  destruct c as [m sh [sel policy] events a d]. destruct policy; reflexivity.
Qed.




Lemma filter_filter {A : Type} (p q : A -> bool) l :
  filter p (filter q l) = filter (fun x => q x && p x) l.
Proof.
  induction l as [|x l IH]; simpl; [reflexivity |].
  destruct (q x); simpl; [destruct (p x) |]; rewrite IH; reflexivity.
Qed.

Lemma filter_all {A : Type} (l : list A) : filter (fun _ => true) l = l.
Proof. induction l as [|x l IH]; simpl; [| rewrite IH]; reflexivity. Qed.


Lemma delete_selected_mode l : forall c, mode (delete_selected l c) = mode c.
Proof.
  induction l as [|s l IH]; intros c; simpl; [reflexivity |].
  destruct (ObservableSet.has (targetShapes (shManager c)) s); rewrite IH;
    [apply shapes_delete_mode | reflexivity].
Qed.

Lemma delete_selected_shapes l : forall c,
  _shapes (delete_selected l c) =
  filter (fun x => negb (ObservableSet.has (visited l c) x)) (_shapes c).
Proof.
  induction l as [|s l IH]; intros c; simpl delete_selected; simpl visited.
  - simpl. rewrite filter_all. reflexivity.
  - destruct (ObservableSet.has (targetShapes (shManager c)) s).
    + rewrite IH, shapes_delete_shapes, filter_filter.
      apply filter_ext. intros x.
      unfold ObservableSet.has at 2. simpl existsb.
      unfold ObservableSet.same_object at 1 3.
      rewrite (Nat.eqb_sym (ref s) (ref x)), negb_orb. reflexivity.
    + apply IH.
Qed.








Lemma selection_subset_forall c :
  selection_in_collection c = true <->
  forall s, In s (targetShapes (shManager c)) ->
            ObservableSet.has (_shapes c) s = true.
Proof. unfold selection_in_collection. apply forallb_forall. Qed.

Lemma onTabulation_cases event c :
  onTabulation event c = c \/
  exists nextShape, In nextShape (_shapes c) /\
                    onTabulation event c = with_targetShapes [nextShape] c.
Proof.
  unfold onTabulation.
  destruct (mode c); auto;
    match goal with
    | |- context [array_get ?l ?i] => destruct (array_get l i) as [x|] eqn:E
    end; auto; right; exists x;
    (split; [| reflexivity]);
    unfold array_get in E;
    match type of E with
    | match ?i with _ => _ end = _ => destruct i as [z|]; [| discriminate]
    end;
    destruct (z <? 0)%Z; try discriminate;
    apply nth_error_In in E; exact E.
Qed.

(** ** The claims *)

(** C1 (amended).  Adding a shape, pasting, a key press (Tab, Delete,
    Escape or any other key) and assigning [selectedShapeIds] all keep every
    selected shape inside the shape collection, and the Delete key leaves
    nothing selected.  Assigning [shapes] replaces the collection by the
    given shapes and leaves the selection as it was. *)
Theorem selection_subset_after_operation (env : Platform) (op : operation)
    (c : Canvas2d) :
  selection_in_collection c = true ->
  match op with
  | SetShapes value =>
    selectedShapes (final_state (perform env op c)) = selectedShapes c /\
    shapes (final_state (perform env op c)) =
      fold_left ObservableSet.insert (map observable value) []
  | _ => selection_in_collection (final_state (perform env op c)) = true
  end /\
  selectedShapes (keyBinding Delete c) = [].
Proof.
  intros Inv. split; [| reflexivity].
  pose proof (proj1 (selection_subset_forall c) Inv) as H.
  destruct op as [shape | text | event | ids | value]; simpl.
  - apply selection_subset_forall. intros s Hs. simpl in *.
    rewrite SetFacts.has_insert, (H s Hs). reflexivity.
  - unfold onPaste. destruct (JSON_parse env text) as [[| | | | items |]|];
      simpl; try exact Inv.
    apply selection_subset_forall. intros s Hs.
    rewrite paste_fold_selection in Hs. apply paste_fold_keeps. auto.
  - unfold keyBinding.
    destruct (String.eqb (key event) "Tab").
    { destruct (onTabulation_cases event c) as [-> | [x [Hx ->]]]; [exact Inv |].
      apply selection_subset_forall. simpl. intros s [<- | []].
      apply SetFacts.In_has. exact Hx. }
    destruct (String.eqb (key event) "Delete"); [reflexivity |].
    destruct (String.eqb (key event) "Escape"); [reflexivity | exact Inv].
  - apply selection_subset_forall. unfold set_selectedShapeIds.
    rewrite targetShapes_set_eq. simpl. intros s Hs.
    apply SetFacts.In_fold_insert in Hs. destruct Hs as [[] | Hs].
    apply filter_In in Hs. apply SetFacts.In_has. apply Hs.
  - split; reflexivity.
Qed.


(** C3 (amended).  A [selection] event carrying the ids then selected is
    dispatched when a single shape is added to or deleted from the
    selection.  Assigning [selectedShapeIds] and Tab navigation replace the
    selection through [targetShapes.set]; its notification has the kind
    [set], which the observer skips, and no event is dispatched. *)
Theorem selection_event_emission :
  (forall v c,
     dispatched (targetShapes_add v c) =
     dispatched c ++ [selection_event (selectedShapeIds (targetShapes_add v c))]) /\
  (forall v c,
     dispatched (targetShapes_delete v c) =
     dispatched c ++ [selection_event (selectedShapeIds (targetShapes_delete v c))]) /\
  (forall ids c, dispatched (set_selectedShapeIds ids c) = dispatched c) /\
  (forall event c, dispatched (onTabulation event c) = dispatched c).
Proof.
  repeat split; try reflexivity.
  intros event c.
  destruct (onTabulation_cases event c) as [-> | [x [_ ->]]]; reflexivity.
Qed.

(** ** Paste *)

Lemma pasted_length env items : forall a d,
  List.length (pasted env a d items) = List.length items.
Proof.
  induction items as [|v items IH]; intros a d; simpl; [reflexivity |].
  rewrite IH. reflexivity.
Qed.

Lemma pasted_ids env items : forall a d,
  map id (pasted env a d items) =
  map (fun k => substring_from 7 (Math_random_toString36 env (d + k)))
      (seq 0 (List.length items)).
Proof.
  induction items as [|v items IH]; intros a d; simpl; [reflexivity |].
  rewrite Nat.add_0_r. f_equal.
  rewrite IH, <- seq_shift, map_map.
  apply map_ext. intros k. rewrite Nat.add_succ_comm. reflexivity.
Qed.

Lemma pasted_props env items : forall a d,
  map props (pasted env a d items) =
  map (fun v => other_properties (own_properties v)) items.
Proof.
  induction items as [|v items IH]; intros a d; simpl; [reflexivity |].
  rewrite IH. reflexivity.
Qed.

Lemma pasted_refs env items : forall a d s,
  In s (pasted env a d items) -> a <= ref s.
Proof.
  induction items as [|v items IH]; intros a d s H; simpl in H; [contradiction |].
  destruct H as [<- | H]; simpl; [lia |].
  apply IH in H. lia.
Qed.

Lemma has_allocated s a x :
  forallb (fun y => ref y <? a) s = true -> a <= ref x ->
  ObservableSet.has s x = false.
Proof.
  intros H Hx. destruct (ObservableSet.has s x) eqn:E; [| reflexivity].
  apply existsb_exists in E. destruct E as [y [Hy E]].
  apply Nat.eqb_eq in E.
  rewrite forallb_forall in H. specialize (H y Hy).
  apply Nat.ltb_lt in H. lia.
Qed.

Lemma canvas_eq m1 s1 t1 e1 a1 d1 m2 s2 t2 e2 a2 d2 :
  m1 = m2 -> s1 = s2 -> t1 = t2 -> e1 = e2 -> a1 = a2 -> d1 = d2 ->
  {| mode := m1; _shapes := s1; shManager := t1; dispatched := e1;
     allocated := a1; draws := d1 |} =
  {| mode := m2; _shapes := s2; shManager := t2; dispatched := e2;
     allocated := a2; draws := d2 |}.
Proof. intros; subst; reflexivity. Qed.

(** Pasting appends one new shape for each item. *)
Lemma paste_fold env items : forall c,
  objects_allocated c = true ->
  fold_left (paste_value env) items c = after_paste env items c.
Proof.
  induction items as [|v items IH]; intros c H.
  - destruct c. unfold after_paste. simpl.
    apply canvas_eq; simpl; try reflexivity;
      try (symmetry; apply app_nil_r); lia.
  - simpl fold_left. rewrite IH.
    + unfold after_paste, paste_value. rewrite shapes_add_eq. simpl.
      unfold observable.
      rewrite SetFacts.insert_new by (apply has_allocated with (a := allocated c); auto).
      apply canvas_eq; simpl; try reflexivity;
        try (rewrite <- app_assoc; reflexivity); lia.
    + unfold objects_allocated, paste_value. rewrite shapes_add_eq. simpl.
      unfold observable.
      rewrite SetFacts.insert_new by (apply has_allocated with (a := allocated c); auto).
      unfold objects_allocated in H.
      apply forallb_forall. intros x Hx. apply Nat.ltb_lt.
      apply in_app_or in Hx. destruct Hx as [Hx | [<- | []]]; simpl; [| lia].
      rewrite forallb_forall in H. specialize (H x Hx).
      apply Nat.ltb_lt in H. lia.
Qed.

Lemma other_properties_without_id members :
  includes (map fst members) "id" = false ->
  other_properties members = members.
Proof.
  unfold other_properties, includes.
  induction members as [|[k v] members IH]; [reflexivity |].
  cbn [map fst existsb filter]. intros H.
  apply orb_false_elim in H. destruct H as [Hk H].
  rewrite String.eqb_sym, Hk. cbn [negb]. rewrite IH; auto.
Qed.



(** C5 (amended).  When [JSON.parse] fails, [onPaste] throws its
    [SyntaxError] and the state is unchanged; when the text is a JSON value
    that is not an array, [onPaste] returns normally, without an error, and
    the state is unchanged. *)
Theorem paste_outcome (env : Platform) (text : string) (c : Canvas2d) :
  (JSON_parse env text = None ->
   onPaste env text c = Throw SyntaxError c) /\
  (forall v, JSON_parse env text = Some v ->
             (forall items, v <> JArr items) ->
             onPaste env text c = Normal c).
Proof.
  unfold onPaste. split.
  - intros ->. reflexivity.
  - intros v -> Hv. destruct v; try reflexivity.
    exfalso. apply (Hv items). reflexivity.
Qed.

(** C7 (amended).  When something is selected and the platform's
    [JSON.parse] reads back what its [JSON.stringify] wrote for the selected
    shapes, pasting the text of [onCopy] adds one new shape for each copied
    shape, with the properties of the copied shape other than [id]; the id
    of each is the outcome of [Math.random().toString(36)] without its first
    seven characters, whatever the ids of the originals. *)
Theorem copy_paste_round_trip (env : Platform) (c1 c2 : Canvas2d) :
  selectedShapes c1 <> [] ->
  JSON_parse env
    (JSON_stringify env (JArr (map json_of_shape (selectedShapes c1)))) =
    Some (JArr (map json_of_shape (selectedShapes c1))) ->
  objects_allocated c2 = true ->
  exists (text : string) (added : list ShapeData),
    onCopy env c1 = Some text /\
    onPaste env text c2 =
      Normal (after_paste env (map json_of_shape (selectedShapes c1)) c2) /\
    shapes (final_state (onPaste env text c2)) = shapes c2 ++ added /\
    map props added = map (fun s => other_properties (props s)) (selectedShapes c1) /\
    map id added =
      map (fun k => substring_from 7 (Math_random_toString36 env (draws c2 + k)))
          (seq 0 (List.length (selectedShapes c1))) /\
    forallb (fun s => negb (ObservableSet.has (shapes c2) s)) added = true.
Proof.
  intros Hsel Hjson Hc.
  exists (JSON_stringify env (JArr (map json_of_shape (selectedShapes c1)))).
  exists (pasted env (allocated c2) (draws c2)
                 (map json_of_shape (selectedShapes c1))).
  assert (Hcopy : onCopy env c1 =
    Some (JSON_stringify env (JArr (map json_of_shape (selectedShapes c1))))).
  { unfold onCopy, selectedShapes, ObservableSet.size, ObservableSet.values in *.
    destruct (targetShapes (shManager c1)); [contradiction | reflexivity]. }
  assert (Hpaste : onPaste env
      (JSON_stringify env (JArr (map json_of_shape (selectedShapes c1)))) c2 =
      Normal (after_paste env (map json_of_shape (selectedShapes c1)) c2)).
  { unfold onPaste. rewrite Hjson. rewrite paste_fold by exact Hc. reflexivity. }
  split; [exact Hcopy |]. split; [exact Hpaste |].
  rewrite Hpaste. simpl. repeat split.
  - rewrite pasted_props, map_map. reflexivity.
  - rewrite pasted_ids, length_map. reflexivity.
  - apply forallb_forall. intros s Hs.
    rewrite (has_allocated _ (allocated c2)); auto.
    apply pasted_refs in Hs. exact Hs.
Qed.

(** ** Tabulation *)

Lemma findIndex_from_none {A : Type} (p : A -> bool) l : forall k,
  (forall x, In x l -> p x = false) -> findIndex_from p l k = (-1)%Z.
Proof.
  induction l as [|y l IH]; intros k H; simpl; [reflexivity |].
  rewrite (H y (or_introl eq_refl)). apply IH. intros x Hx. apply H. right. exact Hx.
Qed.

Lemma findIndex_from_selected l : forall j x k,
  distinct_objects l -> nth_error l j = Some x ->
  findIndex_from (fun s => ObservableSet.has [x] s) l k = (k + Z.of_nat j)%Z.
Proof.
  unfold distinct_objects.
  induction l as [|y l IH]; intros j x k D H.
  - destruct j; discriminate.
  - inversion D as [|? ? Hy Hl]; subst.
    assert (Hp : ObservableSet.has [x] y = (ref y =? ref x)).
    { unfold ObservableSet.has. simpl. apply orb_false_r. }
    cbn [findIndex_from]. rewrite Hp.
    destruct j as [|j]; simpl in H.
    + injection H as ->. rewrite Nat.eqb_refl. lia.
    + destruct (ref y =? ref x) eqn:E.
      * exfalso. apply Nat.eqb_eq in E. apply Hy. rewrite E.
        apply in_map. apply nth_error_In in H. exact H.
      * rewrite (IH j x (k + 1)%Z Hl H). lia.
Qed.

Lemma rem_previous j n :
  j < n ->
  Z.rem (Z.of_nat j - 1 + Z.of_nat n) (Z.of_nat n) = Z.of_nat ((j + n - 1) mod n).
Proof.
  intros H. rewrite Z.rem_mod_nonneg by lia.
  replace (Z.of_nat j - 1 + Z.of_nat n)%Z with (Z.of_nat (j + n - 1)) by lia.
  rewrite Nat2Z.inj_mod. reflexivity.
Qed.

Lemma rem_following j n :
  j < n ->
  Z.rem (Z.of_nat j + 1 + Z.of_nat n) (Z.of_nat n) = Z.of_nat ((j + 1) mod n).
Proof.
  intros H. rewrite Z.rem_mod_nonneg by lia.
  replace (Z.of_nat j + 1 + Z.of_nat n)%Z with (Z.of_nat (j + 1 + 1 * n)) by lia.
  rewrite <- Nat2Z.inj_mod, Nat.Div0.mod_add. reflexivity.
Qed.

Lemma js_or_index j : js_or (Z.of_nat j) 0 = Z.of_nat j.
Proof.
  unfold js_or. destruct (Z.of_nat j =? 0)%Z eqn:E; [| reflexivity].
  apply Z.eqb_eq in E. symmetry. exact E.
Qed.

Lemma array_get_nat {A : Type} (l : list A) (j : nat) :
  array_get l (Num (Z.of_nat j)) = nth_error l j.
Proof.
  unfold array_get. destruct (Z.of_nat j <? 0)%Z eqn:E.
  - apply Z.ltb_lt in E. lia.
  - rewrite Nat2Z.id. reflexivity.
Qed.

Lemma js_rem_nonzero a n : n <> 0 ->
  js_rem a (Z.of_nat n) = Num (Z.rem a (Z.of_nat n)).
Proof.
  intros H. unfold js_rem. destruct (Z.of_nat n =? 0)%Z eqn:E; [| reflexivity].
  apply Z.eqb_eq in E. lia.
Qed.

(** Tabulation in a state where the element at index [j] is the selected
    one: the selection moves to index [next]. *)
Lemma onTabulation_from event c j next :
  mode c <> create ->
  distinct_objects (_shapes c) ->
  j < List.length (_shapes c) ->
  next_index (shiftKey event) (Z.of_nat j) (Z.of_nat (List.length (_shapes c))) =
    Num (Z.of_nat next) ->
  next < List.length (_shapes c) ->
  onTabulation event (select_nth j c) = select_nth next c.
Proof.
  intros Hmode D Hj Hnext Hlt.
  unfold select_nth at 1.
  destruct (nth_error (_shapes c) j) as [x|] eqn:Ex.
  2:{ apply nth_error_None in Ex. lia. }
  unfold onTabulation.
  change (mode (with_targetShapes [x] c)) with (mode c).
  change (shapes (with_targetShapes [x] c)) with (_shapes c).
  change (targetShapes (shManager (with_targetShapes [x] c))) with [x].
  unfold ObservableSet.values, findIndex.
  rewrite (findIndex_from_selected _ j x 0%Z D Ex).
  rewrite Z.add_0_l, js_or_index, Hnext, array_get_nat.
  unfold select_nth.
  destruct (nth_error (_shapes c) next) eqn:En.
  2:{ apply nth_error_None in En. lia. }
  destruct (mode c); try contradiction; reflexivity.
Qed.

Lemma Tab_from c j :
  mode c <> create -> distinct_objects (_shapes c) ->
  j < List.length (_shapes c) ->
  keyBinding Tab (select_nth j c) =
  select_nth ((j + List.length (_shapes c) - 1) mod List.length (_shapes c)) c.
Proof.
  intros Hmode D Hj. change (keyBinding Tab (select_nth j c)) with
    (onTabulation Tab (select_nth j c)).
  apply onTabulation_from; auto.
  - unfold next_index. simpl. rewrite js_rem_nonzero by lia.
    rewrite rem_previous by exact Hj. reflexivity.
  - apply Nat.mod_upper_bound. lia.
Qed.

Lemma ShiftTab_from c j :
  mode c <> create -> distinct_objects (_shapes c) ->
  j < List.length (_shapes c) ->
  keyBinding ShiftTab (select_nth j c) =
  select_nth ((j + 1) mod List.length (_shapes c)) c.
Proof.
  intros Hmode D Hj. change (keyBinding ShiftTab (select_nth j c)) with
    (onTabulation ShiftTab (select_nth j c)).
  apply onTabulation_from; auto.
  - unfold next_index. simpl. rewrite js_rem_nonzero by lia.
    rewrite rem_following by exact Hj. reflexivity.
  - apply Nat.mod_upper_bound. lia.
Qed.

(** Tabulation when nothing is selected. *)
Lemma onTabulation_unselected event c next :
  mode c <> create ->
  targetShapes (shManager c) = [] ->
  next_index (shiftKey event) (-1) (Z.of_nat (List.length (_shapes c))) =
    Num (Z.of_nat next) ->
  onTabulation event c = select_nth next c.
Proof.
  intros Hmode Hsel Hnext. unfold onTabulation, findIndex, shapes, ObservableSet.values.
  rewrite findIndex_from_none by (intros x _; rewrite Hsel; reflexivity).
  change (js_or (-1) 0) with (-1)%Z.
  rewrite Hnext, array_get_nat. unfold select_nth.
  destruct (mode c); try contradiction;
    destruct (nth_error (_shapes c) next); reflexivity.
Qed.

Lemma iter_Tab c j k :
  mode c <> create -> distinct_objects (_shapes c) ->
  j < List.length (_shapes c) ->
  Nat.iter k (keyBinding Tab) (select_nth j c) =
  select_nth ((j + k * (List.length (_shapes c) - 1)) mod List.length (_shapes c)) c.
Proof.
  intros Hmode D Hj. set (n := List.length (_shapes c)) in *.
  induction k as [|k IH]; simpl Nat.iter.
  - rewrite Nat.mul_0_l, Nat.add_0_r, Nat.mod_small by exact Hj. reflexivity.
  - rewrite IH. rewrite Tab_from; auto.
    2:{ apply Nat.mod_upper_bound. lia. }
    fold n. f_equal.
    replace (((j + k * (n - 1)) mod n) + n - 1) with
      (((j + k * (n - 1)) mod n) + (n - 1)) by lia.
    rewrite Nat.Div0.add_mod_idemp_l. f_equal. lia.
Qed.

Lemma ShiftTab_undoes_Tab c j :
  mode c <> create -> distinct_objects (_shapes c) ->
  j < List.length (_shapes c) ->
  keyBinding ShiftTab (keyBinding Tab (select_nth j c)) = select_nth j c.
Proof.
  intros Hmode D Hj. set (n := List.length (_shapes c)) in *.
  rewrite Tab_from by assumption. fold n.
  rewrite ShiftTab_from; auto.
  2:{ apply Nat.mod_upper_bound. lia. }
  fold n. f_equal.
  rewrite Nat.Div0.add_mod_idemp_l.
  replace (j + n - 1 + 1) with (j + 1 * n) by lia.
  rewrite Nat.Div0.mod_add. apply Nat.mod_small. exact Hj.
Qed.

Lemma iter_ShiftTab_iter_Tab c j : forall i k,
  mode c <> create -> distinct_objects (_shapes c) ->
  j < List.length (_shapes c) -> i <= k ->
  Nat.iter i (keyBinding ShiftTab) (Nat.iter k (keyBinding Tab) (select_nth j c)) =
  Nat.iter (k - i) (keyBinding Tab) (select_nth j c).
Proof.
  intros i k Hmode D Hj. induction i as [|i IH]; intros Hik.
  - rewrite Nat.sub_0_r. reflexivity.
  - simpl Nat.iter at 1. rewrite IH by lia.
    replace (k - i) with (S (k - S i)) by lia. simpl Nat.iter at 1.
    rewrite iter_Tab by assumption.
    apply ShiftTab_undoes_Tab; auto.
    apply Nat.mod_upper_bound. lia.
Qed.


Lemma Tab_unselected c :
  mode c <> create -> targetShapes (shManager c) = [] -> _shapes c <> [] ->
  keyBinding Tab c = select_nth (List.length (_shapes c) - 2) c.
Proof.
  intros Hmode Hsel Hne. set (n := List.length (_shapes c)).
  assert (Hn : 0 < n).
  { unfold n. destruct (_shapes c); [contradiction | simpl; lia]. }
  change (keyBinding Tab c) with (onTabulation Tab c).
  apply onTabulation_unselected; auto. fold n.
  unfold next_index. simpl shiftKey. cbv iota.
  rewrite js_rem_nonzero by lia.
  destruct (Nat.eq_dec n 1) as [-> | Hn1]; [reflexivity |].
  rewrite Z.rem_small by lia. f_equal. lia.
Qed.


(** C8.  In a collection of five shapes with nothing selected and a mode
    other than [create], the first Tab selects the fourth shape.  From any
    selected shape Tab moves four places on, cyclically, and Shift+Tab one
    place on, so five Tabs lead back to the shape they started from, and
    Shift+Tab walks back through the shapes Tab went through, in reverse. *)
Theorem cyclic_navigation (c : Canvas2d) :
  List.length (shapes c) = 5 ->
  distinct_objects (shapes c) ->
  mode c <> create ->
  selectedShapes c = [] ->
  keyBinding Tab c = select_nth 3 c /\
  (forall j, j < 5 ->
     keyBinding Tab (select_nth j c) = select_nth ((j + 4) mod 5) c /\
     keyBinding ShiftTab (select_nth j c) = select_nth ((j + 1) mod 5) c /\
     Nat.iter 5 (keyBinding Tab) (select_nth j c) = select_nth j c) /\
  (forall j k i, j < 5 -> i <= k ->
     Nat.iter i (keyBinding ShiftTab)
       (Nat.iter k (keyBinding Tab) (select_nth j c)) =
     Nat.iter (k - i) (keyBinding Tab) (select_nth j c)).
Proof.
  unfold shapes. intros Hlen D Hmode Hsel. split; [| split].
  - rewrite Tab_unselected; auto.
    + rewrite Hlen. reflexivity.
    + intros E. rewrite E in Hlen. discriminate.
  - intros j Hj. repeat split.
    + rewrite Tab_from by (auto; lia). rewrite Hlen.
      replace (j + 5 - 1) with (j + 4) by lia. reflexivity.
    + rewrite ShiftTab_from by (auto; lia). rewrite Hlen. reflexivity.
    + rewrite iter_Tab by (auto; lia). rewrite Hlen. f_equal.
      change (5 * (5 - 1)) with (4 * 5).
      rewrite Nat.Div0.mod_add. apply Nat.mod_small. exact Hj.
  - intros j k i Hj Hik. apply iter_ShiftTab_iter_Tab; auto. lia.
Qed.

(** C9.  With an empty shape collection a Tab key press, with or without
    the shift key, returns normally and leaves the whole state, collection
    and selection included, as it was. *)
Theorem tabulation_on_empty_collection (env : Platform) (event : KeyboardEvent)
    (c : Canvas2d) :
  key event = "Tab"%string ->
  shapes c = [] ->
  perform env (Key event) c = Normal c.
Proof.
  unfold shapes. intros Hkey Hempty. simpl. unfold keyBinding. rewrite Hkey.
  simpl. unfold onTabulation, shapes. rewrite Hempty.
  destruct (mode c), (shiftKey event); reflexivity.
Qed.

Lemma includes_In ids x : includes ids x = true <-> In x ids.
Proof.
  unfold includes. rewrite existsb_exists. split.
  - intros [y [Hy E]]. apply String.eqb_eq in E. subst. exact Hy.
  - intros H. exists x. split; [exact H | apply String.eqb_refl].
Qed.

(** C10.  Assigning a list of ids to [selectedShapeIds] returns normally
    for every list; the selection becomes the shapes of the collection whose
    id is in the list, in the order of the collection, and an id that names
    no shape of the collection selects nothing. *)
Theorem selectedShapeIds_filters (env : Platform) (ids : list string)
    (c : Canvas2d) :
  distinct_objects (shapes c) ->
  perform env (SetSelectedShapeIds ids) c =
    Normal (with_targetShapes
              (filter (fun s => includes ids (id s)) (shapes c)) c) /\
  (forall s, In s (selectedShapes (set_selectedShapeIds ids c)) <->
             In s (shapes c) /\ In (id s) ids).
Proof.
  intros D.
  assert (E : set_selectedShapeIds ids c =
              with_targetShapes (filter (fun s => includes ids (id s)) (shapes c)) c).
  { unfold set_selectedShapeIds. rewrite targetShapes_set_eq.
    unfold ObservableSet.values.
    rewrite (SetFacts.fold_insert_distinct _ []); [reflexivity |].
    simpl. apply SetFacts.distinct_filter. exact D. }
  split.
  - simpl. rewrite E. reflexivity.
  - intros s. rewrite E. unfold selectedShapes, ObservableSet.values. simpl.
    rewrite filter_In, includes_In. reflexivity.
Qed.

(** ** The claims on the example states *)

(** The subset property of C1 on the canvas with two selected shapes, at a
    Delete key press. *)
Lemma selection_subset_after_operation_witness :
  selection_in_collection two_selected = true /\
  (selection_in_collection
     (final_state (perform example_env (Key Delete) two_selected)) = true /\
   selectedShapes (keyBinding Delete two_selected) = []).
Proof.
  split; [vm_compute; reflexivity |].
  apply (selection_subset_after_operation example_env (Key Delete) two_selected).
  vm_compute; reflexivity.
Defined.

(** C1 as stated fails: with one shape in the collection, and selected,
    assigning the empty list to [shapes] leaves that shape selected though
    the collection no longer holds it. *)
Lemma selection_subset_broken_by_set_shapes :
  selection_in_collection one_selected = true /\
  shapes (final_state (perform colliding_env (SetShapes []) one_selected)) = [] /\
  selectedShapeIds
    (final_state (perform colliding_env (SetShapes []) one_selected)) =
    ["k2j4f9"%string] /\
  selection_in_collection
    (final_state (perform colliding_env (SetShapes []) one_selected)) = false.
Proof. repeat split; vm_compute; reflexivity. Qed.



(** C3 as stated fails: assigning [selectedShapeIds], and pressing Tab,
    change the selection and dispatch no [selection] event. *)
Lemma selection_changed_without_event :
  selectedShapeIds five_shapes = [] /\
  selectedShapeIds (set_selectedShapeIds ["7h3xq2"%string] five_shapes) =
    ["7h3xq2"%string] /\
  selection_events
    (dispatched (set_selectedShapeIds ["7h3xq2"%string] five_shapes)) = [] /\
  selectedShapeIds (keyBinding Tab five_shapes) = ["s0bwy5"%string] /\
  selection_events (dispatched (keyBinding Tab five_shapes)) = [].
Proof. repeat split; vm_compute; reflexivity. Qed.



(** The two outcomes of C5: a text that is not JSON, and a JSON text that
    is no array. *)
Lemma paste_outcome_witness :
  (JSON_parse example_env "[1,"%string = None /\
   onPaste example_env "[1,"%string five_shapes = Throw SyntaxError five_shapes) /\
  (JSON_parse example_env "{}"%string = Some (JObj []) /\
   onPaste example_env "{}"%string five_shapes = Normal five_shapes).
Proof.
  split.
  - split; [vm_compute; reflexivity |].
    apply (proj1 (paste_outcome example_env "[1,"%string five_shapes)).
    vm_compute; reflexivity.
  - split; [vm_compute; reflexivity |].
    apply (proj2 (paste_outcome example_env "{}"%string five_shapes) (JObj [])).
    + vm_compute; reflexivity.
    + intros items; discriminate.
Defined.

(** C5 as stated fails: the text [{}] is JSON but no array, and [onPaste]
    returns normally instead of failing. *)
Lemma paste_of_non_array_returns :
  JSON_parse example_env "{}"%string = Some (JObj []) /\
  onPaste example_env "{}"%string five_shapes = Normal five_shapes /\
  JSON_parse example_env "null"%string = Some JNull /\
  onPaste example_env "null"%string five_shapes = Normal five_shapes.
Proof. repeat split; vm_compute; reflexivity. Qed.



(** The round trip of C7: the two selected rectangles, copied and pasted
    into the same canvas. *)
Lemma copy_paste_round_trip_witness :
  selectedShapes two_selected <> [] /\
  JSON_parse example_env
    (JSON_stringify example_env
       (JArr (map json_of_shape (selectedShapes two_selected)))) =
    Some (JArr (map json_of_shape (selectedShapes two_selected))) /\
  objects_allocated two_selected = true /\
  (exists (text : string) (added : list ShapeData),
     onCopy example_env two_selected = Some text /\
     onPaste example_env text two_selected =
       Normal (after_paste example_env
                 (map json_of_shape (selectedShapes two_selected)) two_selected) /\
     shapes (final_state (onPaste example_env text two_selected)) =
       shapes two_selected ++ added /\
     map props added =
       map (fun s => other_properties (props s)) (selectedShapes two_selected) /\
     map id added =
       map (fun k => substring_from 7
                       (Math_random_toString36 example_env (draws two_selected + k)))
           (seq 0 (List.length (selectedShapes two_selected))) /\
     forallb (fun s => negb (ObservableSet.has (shapes two_selected) s)) added = true).
Proof.
  assert (H1 : selectedShapes two_selected <> []) by (vm_compute; discriminate).
  assert (H2 : JSON_parse example_env
                 (JSON_stringify example_env
                    (JArr (map json_of_shape (selectedShapes two_selected)))) =
               Some (JArr (map json_of_shape (selectedShapes two_selected))))
    by (vm_compute; reflexivity).
  assert (H3 : objects_allocated two_selected = true) by (vm_compute; reflexivity).
  split; [exact H1 |]. split; [exact H2 |]. split; [exact H3 |].
  exact (copy_paste_round_trip example_env two_selected two_selected H1 H2 H3).
Defined.

(** C7 as stated fails: the selected rectangle has the id [k2j4f9]; with
    an outcome of [Math.random] that ends in the same characters, the pasted
    copy gets the id of its original. *)
Lemma pasted_copy_with_id_of_original :
  selectedShapeIds one_selected = ["k2j4f9"%string] /\
  exists text,
    onCopy colliding_env one_selected = Some text /\
    map id (shapes (final_state (onPaste colliding_env text one_selected))) =
      ["k2j4f9"; "k2j4f9"]%string /\
    map ref (shapes (final_state (onPaste colliding_env text one_selected))) =
      [0; 1].
Proof.
  split; [vm_compute; reflexivity |].
  eexists. split; [vm_compute; reflexivity |].
  split; vm_compute; reflexivity.
Qed.

(** The navigation of C8 on the canvas of five shapes. *)
Lemma cyclic_navigation_witness :
  List.length (shapes five_shapes) = 5 /\
  distinct_objects (shapes five_shapes) /\
  mode five_shapes <> create /\
  selectedShapes five_shapes = [] /\
  keyBinding Tab five_shapes = select_nth 3 five_shapes /\
  Nat.iter 5 (keyBinding Tab) (select_nth 3 five_shapes) = select_nth 3 five_shapes /\
  Nat.iter 2 (keyBinding ShiftTab)
    (Nat.iter 3 (keyBinding Tab) (select_nth 3 five_shapes)) =
  Nat.iter 1 (keyBinding Tab) (select_nth 3 five_shapes).
Proof.
  assert (H1 : List.length (shapes five_shapes) = 5) by (vm_compute; reflexivity).
  assert (H2 : distinct_objects (shapes five_shapes)) by distinct_refs.
  assert (H3 : mode five_shapes <> create) by (vm_compute; discriminate).
  assert (H4 : selectedShapes five_shapes = []) by (vm_compute; reflexivity).
  destruct (cyclic_navigation five_shapes H1 H2 H3 H4) as [Hfirst [Hstep Hback]].
  split; [exact H1 |]. split; [exact H2 |]. split; [exact H3 |].
  split; [exact H4 |]. split; [exact Hfirst |]. split.
  - apply (Hstep 3). lia.
  - apply (Hback 3 3 2); lia.
Defined.

(** The Tab key of C9 on the canvas just created. *)
Lemma tabulation_on_empty_collection_witness :
  key Tab = "Tab"%string /\
  shapes new_Canvas2d = [] /\
  perform example_env (Key Tab) new_Canvas2d = Normal new_Canvas2d.
Proof.
  split; [reflexivity |]. split; [reflexivity |].
  apply (tabulation_on_empty_collection example_env Tab new_Canvas2d); reflexivity.
Defined.

(** The assignment of C10 on the canvas of five shapes, with an id of the
    collection and an id of no shape. *)
Lemma selectedShapeIds_filters_witness :
  distinct_objects (shapes five_shapes) /\
  perform example_env (SetSelectedShapeIds ["7h3xq2"; "absent"]%string) five_shapes =
    Normal (with_targetShapes
              (filter (fun s => includes ["7h3xq2"; "absent"]%string (id s))
                      (shapes five_shapes)) five_shapes) /\
  selectedShapeIds (set_selectedShapeIds ["7h3xq2"; "absent"]%string five_shapes) =
    ["7h3xq2"%string].
Proof.
  assert (H : distinct_objects (shapes five_shapes)) by distinct_refs.
  split; [exact H |]. split.
  - exact (proj1 (selectedShapeIds_filters example_env
                    ["7h3xq2"; "absent"]%string five_shapes H)).
  - vm_compute; reflexivity.
Defined.

(** ** Further properties of the element *)

Lemma paste_fold_mode env items : forall c,
  mode (fold_left (paste_value env) items c) = mode c.
Proof.
  induction items as [|v items IH]; intros c; simpl; [reflexivity |].
  rewrite IH. reflexivity.
Qed.

(** X2.  What each operation leaves alone: adding a shape, pasting and
    assigning [shapes] never change the selection; assigning
    [selectedShapeIds] and every key other than Delete never change the
    collection; no operation changes the mode. *)
Theorem operations_frame (env : Platform) (op : operation) (c : Canvas2d) :
  match op with
  | AddShape _ | Paste _ | SetShapes _ =>
    selectedShapes (final_state (perform env op c)) = selectedShapes c
  | SetSelectedShapeIds _ =>
    shapes (final_state (perform env op c)) = shapes c
  | Key event =>
    if String.eqb (key event) "Delete"
    then selectedShapes (final_state (perform env op c)) = []
    else shapes (final_state (perform env op c)) = shapes c
  end /\
  mode (final_state (perform env op c)) = mode c.
Proof.
  destruct op as [shape | text | event | ids | value]; simpl.
  - split; reflexivity.
  - unfold onPaste. destruct (JSON_parse env text) as [[| | | | items |]|];
      simpl; try (split; reflexivity).
    unfold selectedShapes. rewrite paste_fold_selection, paste_fold_mode.
    split; reflexivity.
  - unfold keyBinding.
    destruct (String.eqb (key event) "Tab") eqn:ETab.
    + assert (Hk : String.eqb (key event) "Delete" = false).
      { apply String.eqb_eq in ETab. rewrite ETab. reflexivity. }
      rewrite Hk.
      destruct (onTabulation_cases event c) as [-> | [x [_ ->]]];
        split; reflexivity.
    + destruct (String.eqb (key event) "Delete").
      * split; [reflexivity |]. rewrite targetShapes_clear_eq. simpl.
        apply delete_selected_mode.
      * destruct (String.eqb (key event) "Escape"); split; reflexivity.
  - split; reflexivity.
  - split; reflexivity.
Qed.

(** ** Further properties of the tabulation *)

Lemma findIndex_from_bounds {A : Type} (p : A -> bool) l : forall k,
  findIndex_from p l k = (-1)%Z \/
  (k <= findIndex_from p l k < k + Z.of_nat (List.length l))%Z.
Proof.
  induction l as [|x l IH]; intros k; simpl findIndex_from; [left; reflexivity |].
  destruct (p x).
  - right. simpl List.length. lia.
  - destruct (IH (k + 1)%Z) as [H | H]; [left; exact H | right].
    simpl List.length. lia.
Qed.

Lemma findIndex_from_first {A : Type} (p : A -> bool) l : forall j x k,
  nth_error l j = Some x -> p x = true ->
  (forall i y, i < j -> nth_error l i = Some y -> p y = false) ->
  findIndex_from p l k = (k + Z.of_nat j)%Z.
Proof.
  induction l as [|y l IH]; intros j x k Hx Hp Hbefore.
  - destruct j; discriminate.
  - destruct j as [|j]; simpl in Hx.
    + injection Hx as ->. simpl. rewrite Hp. lia.
    + simpl findIndex_from.
      rewrite (Hbefore 0 y) by (simpl; auto; lia).
      rewrite (IH j x (k + 1)%Z Hx Hp).
      * lia.
      * intros i z Hi Hz. apply (Hbefore (S i) z); [lia | exact Hz].
Qed.

(** Tabulation in any state: the selection moves to the index computed from
    the index of the first selected shape of the collection. *)
Lemma onTabulation_general event c next :
  mode c <> create ->
  next_index (shiftKey event)
    (js_or (findIndex (fun s => ObservableSet.has (targetShapes (shManager c)) s)
                      (_shapes c)) 0)
    (Z.of_nat (List.length (_shapes c))) = Num (Z.of_nat next) ->
  onTabulation event c = select_nth next c.
Proof.
  intros Hmode Hnext. unfold onTabulation, shapes, ObservableSet.values.
  rewrite Hnext, array_get_nat. unfold select_nth.
  destruct (mode c); try contradiction;
    destruct (nth_error (_shapes c) next); reflexivity.
Qed.

Lemma next_index_in_range shift r n :
  0 < n -> (-1 <= r < Z.of_nat n)%Z ->
  exists next, next < n /\
    next_index shift r (Z.of_nat n) = Num (Z.of_nat next).
Proof.
  intros Hn Hr. unfold next_index.
  destruct shift; rewrite js_rem_nonzero by lia.
  - exists (Z.to_nat (Z.rem (r + 1 + Z.of_nat n) (Z.of_nat n))).
    pose proof (Z.rem_bound_pos (r + 1 + Z.of_nat n) (Z.of_nat n)) as B.
    split; [lia |]. rewrite Z2Nat.id by lia. reflexivity.
  - destruct (Z.eq_dec (r - 1 + Z.of_nat n) (-1)) as [E | E].
    + exists 0. split; [exact Hn |].
      assert (n = 1) by lia. subst n. rewrite E. reflexivity.
    + exists (Z.to_nat (Z.rem (r - 1 + Z.of_nat n) (Z.of_nat n))).
      pose proof (Z.rem_bound_pos (r - 1 + Z.of_nat n) (Z.of_nat n)) as B.
      split; [lia |]. rewrite Z2Nat.id by lia. reflexivity.
Qed.

Lemma js_or_range r n :
  0 < n -> (r = -1 \/ 0 <= r < Z.of_nat n)%Z ->
  (-1 <= js_or r 0 < Z.of_nat n)%Z.
Proof.
  intros Hn Hr. unfold js_or. destruct (r =? 0)%Z eqn:E; lia.
Qed.

(** X4.  In the mode [create] a Tab key press, with or without the shift
    key, changes nothing, whatever the collection and the selection. *)
Theorem tabulation_ignored_in_create_mode (env : Platform)
    (event : KeyboardEvent) (c : Canvas2d) :
  key event = "Tab"%string ->
  mode c = create ->
  perform env (Key event) c = Normal c.
Proof.
  intros Hkey Hmode. simpl. unfold keyBinding. rewrite Hkey. simpl.
  unfold onTabulation. rewrite Hmode. reflexivity.
Qed.

(** X5.  Outside the mode [create] and with a collection that is not
    empty, a Tab key press always ends with exactly one selected shape, an
    element of the collection, whatever was selected before; the rest of the
    state is unchanged. *)
Theorem tabulation_selects_one_shape (event : KeyboardEvent) (c : Canvas2d) :
  key event = "Tab"%string ->
  mode c <> create ->
  shapes c <> [] ->
  exists x, In x (shapes c) /\ keyBinding event c = with_targetShapes [x] c.
Proof.
  unfold shapes. intros Hkey Hmode Hne.
  assert (Hn : 0 < List.length (_shapes c)).
  { destruct (_shapes c); [contradiction | simpl; lia]. }
  destruct (next_index_in_range (shiftKey event)
              (js_or (findIndex (fun s => ObservableSet.has (targetShapes (shManager c)) s)
                                (_shapes c)) 0)
              (List.length (_shapes c)) Hn) as [next [Hlt Hnext]].
  { apply js_or_range; [exact Hn |]. unfold findIndex.
    destruct (findIndex_from_bounds
                (fun s => ObservableSet.has (targetShapes (shManager c)) s)
                (_shapes c) 0) as [H | H]; [left; exact H | right; lia]. }
  unfold keyBinding. rewrite Hkey. simpl.
  rewrite (onTabulation_general event c next Hmode Hnext).
  unfold select_nth. destruct (nth_error (_shapes c) next) as [x|] eqn:E.
  - exists x. split; [apply nth_error_In in E; exact E | reflexivity].
  - apply nth_error_None in E. lia.
Qed.

(** X6.  With one or several shapes selected, the navigation starts from
    the first selected shape in the order of the collection: from the index
    [j] of that shape Tab selects the shape at index [(j + n - 1) mod n] and
    Shift+Tab the shape at index [(j + 1) mod n], [n] being the size of the
    collection. *)
Theorem tabulation_from_first_selected (c : Canvas2d) (j : nat) (x : ShapeData) :
  mode c <> create ->
  nth_error (shapes c) j = Some x ->
  ObservableSet.has (selectedShapes c) x = true ->
  (forall i y, i < j -> nth_error (shapes c) i = Some y ->
               ObservableSet.has (selectedShapes c) y = false) ->
  keyBinding Tab c =
    select_nth ((j + List.length (shapes c) - 1) mod List.length (shapes c)) c /\
  keyBinding ShiftTab c =
    select_nth ((j + 1) mod List.length (shapes c)) c.
Proof.
  unfold shapes, selectedShapes, ObservableSet.values.
  intros Hmode Hx Hsel Hbefore.
  assert (Hj : j < List.length (_shapes c)).
  { apply nth_error_Some. rewrite Hx. discriminate. }
  assert (Hidx : js_or (findIndex (fun s => ObservableSet.has (targetShapes (shManager c)) s)
                                  (_shapes c)) 0 = Z.of_nat j).
  { unfold findIndex.
    rewrite (findIndex_from_first
               (fun s => ObservableSet.has (targetShapes (shManager c)) s)
               _ j x 0%Z Hx Hsel Hbefore).
    rewrite Z.add_0_l. apply js_or_index. }
  split.
  - change (keyBinding Tab c) with (onTabulation Tab c).
    apply onTabulation_general; [exact Hmode |]. rewrite Hidx.
    unfold next_index. simpl shiftKey. cbv iota.
    rewrite js_rem_nonzero by lia. rewrite rem_previous by exact Hj. reflexivity.
  - change (keyBinding ShiftTab c) with (onTabulation ShiftTab c).
    apply onTabulation_general; [exact Hmode |]. rewrite Hidx.
    unfold next_index. simpl shiftKey. cbv iota.
    rewrite js_rem_nonzero by lia. rewrite rem_following by exact Hj. reflexivity.
Qed.

(** X7.  When no shape of the collection is selected (nothing is selected,
    or only shapes that are no longer in the collection), [findIndex] gives
    [-1], which [|| 0] leaves as it is: Shift+Tab selects the shape at index
    0 and Tab the shape at index [n - 2] of a collection of [n >= 1] shapes
    (index 0 when [n = 1]). *)
Theorem tabulation_outside_selection (c : Canvas2d) :
  mode c <> create ->
  shapes c <> [] ->
  forallb (fun s => negb (ObservableSet.has (selectedShapes c) s)) (shapes c) = true ->
  keyBinding ShiftTab c = select_nth 0 c /\
  keyBinding Tab c = select_nth (List.length (shapes c) - 2) c.
Proof.
  unfold shapes, selectedShapes, ObservableSet.values. intros Hmode Hne Hout.
  set (n := List.length (_shapes c)).
  assert (Hn : 0 < n).
  { unfold n. destruct (_shapes c); [contradiction | simpl; lia]. }
  assert (Hidx : js_or (findIndex (fun s => ObservableSet.has (targetShapes (shManager c)) s)
                                  (_shapes c)) 0 = (-1)%Z).
  { unfold findIndex. rewrite findIndex_from_none; [reflexivity |].
    intros x Hx. rewrite forallb_forall in Hout. specialize (Hout x Hx).
    apply negb_true_iff in Hout. exact Hout. }
  split.
  - change (keyBinding ShiftTab c) with (onTabulation ShiftTab c).
    apply onTabulation_general; [exact Hmode |]. rewrite Hidx. fold n.
    unfold next_index. simpl shiftKey. cbv iota.
    rewrite js_rem_nonzero by lia.
    replace (-1 + 1 + Z.of_nat n)%Z with (Z.of_nat n) by lia.
    rewrite Z.rem_same by lia. reflexivity.
  - change (keyBinding Tab c) with (onTabulation Tab c).
    apply onTabulation_general; [exact Hmode |]. rewrite Hidx. fold n.
    unfold next_index. simpl shiftKey. cbv iota.
    rewrite js_rem_nonzero by lia.
    destruct (Nat.eq_dec n 1) as [-> | Hn1]; [reflexivity |].
    rewrite Z.rem_small by lia. f_equal. lia.
Qed.

Lemma iter_ShiftTab c j k :
  mode c <> create -> distinct_objects (_shapes c) ->
  j < List.length (_shapes c) ->
  Nat.iter k (keyBinding ShiftTab) (select_nth j c) =
  select_nth ((j + k) mod List.length (_shapes c)) c.
Proof.
  intros Hmode D Hj. set (n := List.length (_shapes c)) in *.
  induction k as [|k IH]; simpl Nat.iter.
  - rewrite Nat.add_0_r, Nat.mod_small by exact Hj. reflexivity.
  - rewrite IH. rewrite ShiftTab_from; auto.
    2:{ apply Nat.mod_upper_bound. lia. }
    fold n. f_equal. rewrite Nat.Div0.add_mod_idemp_l. f_equal. lia.
Qed.

Lemma Tab_undoes_ShiftTab c j :
  mode c <> create -> distinct_objects (_shapes c) ->
  j < List.length (_shapes c) ->
  keyBinding Tab (keyBinding ShiftTab (select_nth j c)) = select_nth j c.
Proof.
  intros Hmode D Hj. set (n := List.length (_shapes c)) in *.
  rewrite ShiftTab_from by assumption. fold n.
  rewrite Tab_from; auto.
  2:{ apply Nat.mod_upper_bound. lia. }
  fold n. f_equal.
  replace ((j + 1) mod n + n - 1) with ((j + 1) mod n + (n - 1)) by lia.
  rewrite Nat.Div0.add_mod_idemp_l.
  replace (j + 1 + (n - 1)) with (j + 1 * n) by lia.
  rewrite Nat.Div0.mod_add. apply Nat.mod_small. exact Hj.
Qed.

(** X8.  In a collection of [n] distinct shapes of which one is selected,
    [n] presses of Tab, and [n] presses of Shift+Tab, lead back to the state
    they started from, and Tab and Shift+Tab undo each other. *)
Theorem navigation_cycle (c : Canvas2d) (j : nat) :
  mode c <> create ->
  distinct_objects (shapes c) ->
  j < List.length (shapes c) ->
  Nat.iter (List.length (shapes c)) (keyBinding Tab) (select_nth j c) =
    select_nth j c /\
  Nat.iter (List.length (shapes c)) (keyBinding ShiftTab) (select_nth j c) =
    select_nth j c /\
  keyBinding ShiftTab (keyBinding Tab (select_nth j c)) = select_nth j c /\
  keyBinding Tab (keyBinding ShiftTab (select_nth j c)) = select_nth j c.
Proof.
  unfold shapes. intros Hmode D Hj. set (n := List.length (_shapes c)) in *.
  repeat split.
  - rewrite iter_Tab by assumption. fold n. f_equal.
    rewrite (Nat.mul_comm n (n - 1)).
    rewrite Nat.Div0.mod_add. apply Nat.mod_small. exact Hj.
  - rewrite iter_ShiftTab by assumption. fold n. f_equal.
    replace (j + n) with (j + 1 * n) by lia.
    rewrite Nat.Div0.mod_add. apply Nat.mod_small. exact Hj.
  - apply ShiftTab_undoes_Tab; assumption.
  - apply Tab_undoes_ShiftTab; assumption.
Qed.

(** ** Further properties of the two setters *)

(** X9.  The selection made by assigning [selectedShapeIds] depends on the
    given list only through the ids that occur in it: their order and their
    repetitions make no difference. *)
Theorem selectedShapeIds_depends_on_id_set (ids1 ids2 : list string)
    (c : Canvas2d) :
  (forall x, In x ids1 <-> In x ids2) ->
  set_selectedShapeIds ids1 c = set_selectedShapeIds ids2 c.
Proof.
  intros H. unfold set_selectedShapeIds. f_equal.
  apply filter_ext. intros s.
  destruct (includes ids1 (id s)) eqn:E1; destruct (includes ids2 (id s)) eqn:E2;
    try reflexivity.
  - apply includes_In in E1. apply H in E1. apply includes_In in E1. congruence.
  - apply includes_In in E2. apply H in E2. apply includes_In in E2. congruence.
Qed.

(** X10.  Of two assignments to [selectedShapeIds] in a row the second
    decides: the first leaves no trace in the state.  Assigning the empty
    list selects nothing. *)
Theorem selectedShapeIds_last_assignment (ids1 ids2 : list string)
    (c : Canvas2d) :
  set_selectedShapeIds ids2 (set_selectedShapeIds ids1 c) =
    set_selectedShapeIds ids2 c /\
  selectedShapes (set_selectedShapeIds [] c) = [].
Proof.
  split.
  - reflexivity.
  - unfold set_selectedShapeIds. rewrite targetShapes_set_eq.
    unfold selectedShapes, ObservableSet.values.
    assert (E : filter (fun s => includes [] (id s)) (shapes c) = []).
    { induction (shapes c) as [|x s IH]; simpl; [reflexivity | exact IH]. }
    rewrite E. reflexivity.
Qed.

(** X13.  The collection and the selection never hold an object twice:
    every operation keeps that property of the two sets. *)
Theorem distinct_objects_kept (env : Platform) (op : operation) (c : Canvas2d) :
  distinct_objects (shapes c) ->
  distinct_objects (selectedShapes c) ->
  distinct_objects (shapes (final_state (perform env op c))) /\
  distinct_objects (selectedShapes (final_state (perform env op c))).
Proof.
  unfold shapes, selectedShapes, ObservableSet.values. intros Dc Ds.
  assert (Hempty : distinct_objects []) by constructor.
  destruct op as [shape | text | event | ids | value]; simpl.
  - split; [apply SetFacts.distinct_insert; exact Dc | exact Ds].
  - unfold onPaste. destruct (JSON_parse env text) as [[| | | | items |]|];
      simpl; try (split; assumption).
    rewrite paste_fold_selection. split; [| exact Ds].
    clear Ds. revert c Dc. induction items as [|v items IH]; intros c Dc; simpl.
    + exact Dc.
    + apply IH. simpl. apply SetFacts.distinct_insert. exact Dc.
  - unfold keyBinding.
    destruct (String.eqb (key event) "Tab").
    { destruct (onTabulation_cases event c) as [-> | [x [_ ->]]].
      - split; assumption.
      - split; [exact Dc |]. simpl. repeat constructor. simpl. tauto. }
    destruct (String.eqb (key event) "Delete").
    { rewrite targetShapes_clear_eq. simpl. split; [| exact Hempty].
      rewrite delete_selected_shapes. apply SetFacts.distinct_filter. exact Dc. }
    destruct (String.eqb (key event) "Escape"); split; assumption.
  - split; [exact Dc |].
    apply SetFacts.distinct_fold_insert. exact Hempty.
  - split; [| exact Ds]. apply SetFacts.distinct_fold_insert. exact Hempty.
Qed.

(** ** Further properties of the paste *)

Lemma substring_from_length n : forall s,
  String.length (substring_from n s) = String.length s - n.
Proof.
  induction n as [|n IH]; intros s; simpl.
  - rewrite Nat.sub_0_r. reflexivity.
  - destruct s as [|ch s]; simpl; [reflexivity | apply IH].
Qed.

Lemma added_after_paste env items c :
  added_after (List.length (shapes c)) (after_paste env items c) =
  pasted env (allocated c) (draws c) items.
Proof.
  unfold added_after, shapes, after_paste. simpl _shapes.
  rewrite skipn_app, skipn_all, Nat.sub_diag. reflexivity.
Qed.

(** X14.  The id of each pasted shape has seven characters less than the
    outcome of [Math.random().toString(36)] it is cut from, and none at all
    when that outcome has seven characters or fewer. *)
Theorem pasted_id_lengths (env : Platform) (text : string) (items : list json)
    (c : Canvas2d) :
  JSON_parse env text = Some (JArr items) ->
  objects_allocated c = true ->
  map (fun s => String.length (id s))
      (added_after (List.length (shapes c)) (final_state (onPaste env text c))) =
  map (fun k => String.length (Math_random_toString36 env (draws c + k)) - 7)
      (seq 0 (List.length items)).
Proof.
  intros Hparse Hc. unfold onPaste. rewrite Hparse.
  rewrite paste_fold by exact Hc. simpl final_state.
  rewrite added_after_paste.
  rewrite <- (map_map id String.length), pasted_ids, map_map.
  apply map_ext. intros k. apply substring_from_length.
Qed.

(** ** The further properties on the example states *)

(** X4 on the canvas of five shapes in the mode [create], at Shift+Tab. *)
Lemma tabulation_ignored_in_create_mode_witness :
  key ShiftTab = "Tab"%string /\
  mode creating = create /\
  perform example_env (Key ShiftTab) creating = Normal creating.
Proof.
  split; [reflexivity |]. split; [reflexivity |].
  exact (tabulation_ignored_in_create_mode example_env ShiftTab creating
           eq_refl eq_refl).
Defined.

(** X5 on the canvas whose selection holds no shape of the collection. *)
Lemma tabulation_selects_one_shape_witness :
  key Tab = "Tab"%string /\
  mode replaced <> create /\
  shapes replaced <> [] /\
  exists x, In x (shapes replaced) /\
            keyBinding Tab replaced = with_targetShapes [x] replaced.
Proof.
  assert (H2 : mode replaced <> create) by (vm_compute; discriminate).
  assert (H3 : shapes replaced <> []) by (vm_compute; discriminate).
  split; [reflexivity |]. split; [exact H2 |]. split; [exact H3 |].
  exact (tabulation_selects_one_shape Tab replaced eq_refl H2 H3).
Defined.

(** X6 on the canvas with its second and fourth shape selected: the
    navigation starts from the second. *)
Lemma tabulation_from_first_selected_witness :
  mode middle_selected <> create /\
  nth_error (shapes middle_selected) 1 = Some second_rectangle /\
  ObservableSet.has (selectedShapes middle_selected) second_rectangle = true /\
  (forall i y, i < 1 -> nth_error (shapes middle_selected) i = Some y ->
               ObservableSet.has (selectedShapes middle_selected) y = false) /\
  keyBinding Tab middle_selected =
    select_nth ((1 + List.length (shapes middle_selected) - 1)
                  mod List.length (shapes middle_selected)) middle_selected /\
  keyBinding ShiftTab middle_selected =
    select_nth ((1 + 1) mod List.length (shapes middle_selected)) middle_selected.
Proof.
  assert (H1 : mode middle_selected <> create) by (vm_compute; discriminate).
  assert (H2 : nth_error (shapes middle_selected) 1 = Some second_rectangle)
    by (vm_compute; reflexivity).
  assert (H3 : ObservableSet.has (selectedShapes middle_selected) second_rectangle = true)
    by (vm_compute; reflexivity).
  assert (H4 : forall i y, i < 1 ->
             nth_error (shapes middle_selected) i = Some y ->
             ObservableSet.has (selectedShapes middle_selected) y = false).
  { intros i y Hi Hy. assert (i = 0) by lia. subst i.
    vm_compute in Hy. injection Hy as <-. vm_compute. reflexivity. }
  split; [exact H1 |]. split; [exact H2 |]. split; [exact H3 |].
  split; [exact H4 |].
  exact (tabulation_from_first_selected middle_selected 1 second_rectangle
           H1 H2 H3 H4).
Defined.

(** X7 on the canvas whose selection holds no shape of the collection. *)
Lemma tabulation_outside_selection_witness :
  mode replaced <> create /\
  shapes replaced <> [] /\
  forallb (fun s => negb (ObservableSet.has (selectedShapes replaced) s))
          (shapes replaced) = true /\
  keyBinding ShiftTab replaced = select_nth 0 replaced /\
  keyBinding Tab replaced = select_nth (List.length (shapes replaced) - 2) replaced.
Proof.
  assert (H1 : mode replaced <> create) by (vm_compute; discriminate).
  assert (H2 : shapes replaced <> []) by (vm_compute; discriminate).
  assert (H3 : forallb (fun s => negb (ObservableSet.has (selectedShapes replaced) s))
                       (shapes replaced) = true) by (vm_compute; reflexivity).
  split; [exact H1 |]. split; [exact H2 |]. split; [exact H3 |].
  exact (tabulation_outside_selection replaced H1 H2 H3).
Defined.

(** X8 on the canvas of five shapes, from the third. *)
Lemma navigation_cycle_witness :
  mode five_shapes <> create /\
  distinct_objects (shapes five_shapes) /\
  2 < List.length (shapes five_shapes) /\
  Nat.iter (List.length (shapes five_shapes)) (keyBinding Tab)
    (select_nth 2 five_shapes) = select_nth 2 five_shapes /\
  Nat.iter (List.length (shapes five_shapes)) (keyBinding ShiftTab)
    (select_nth 2 five_shapes) = select_nth 2 five_shapes /\
  keyBinding ShiftTab (keyBinding Tab (select_nth 2 five_shapes)) =
    select_nth 2 five_shapes /\
  keyBinding Tab (keyBinding ShiftTab (select_nth 2 five_shapes)) =
    select_nth 2 five_shapes.
Proof.
  assert (H1 : mode five_shapes <> create) by (vm_compute; discriminate).
  assert (H2 : distinct_objects (shapes five_shapes)) by distinct_refs.
  assert (H3 : 2 < List.length (shapes five_shapes)) by (vm_compute; lia).
  split; [exact H1 |]. split; [exact H2 |]. split; [exact H3 |].
  exact (navigation_cycle five_shapes 2 H1 H2 H3).
Defined.

(** X9 on the canvas of five shapes, with two lists of the same ids. *)
Lemma selectedShapeIds_depends_on_id_set_witness :
  (forall x, In x ["k2j4f9"; "1tqa6d"; "k2j4f9"]%string <->
             In x ["1tqa6d"; "k2j4f9"]%string) /\
  set_selectedShapeIds ["k2j4f9"; "1tqa6d"; "k2j4f9"]%string five_shapes =
  set_selectedShapeIds ["1tqa6d"; "k2j4f9"]%string five_shapes.
Proof.
  assert (H : forall x, In x ["k2j4f9"; "1tqa6d"; "k2j4f9"]%string <->
                        In x ["1tqa6d"; "k2j4f9"]%string).
  { intros x. simpl. tauto. }
  split; [exact H |].
  exact (selectedShapeIds_depends_on_id_set _ _ five_shapes H).
Defined.

(** X13 on the canvas with two selected shapes, at the Delete key. *)
Lemma distinct_objects_kept_witness :
  distinct_objects (shapes two_selected) /\
  distinct_objects (selectedShapes two_selected) /\
  distinct_objects
    (shapes (final_state (perform example_env (Key Delete) two_selected))) /\
  distinct_objects
    (selectedShapes (final_state (perform example_env (Key Delete) two_selected))).
Proof.
  assert (H1 : distinct_objects (shapes two_selected)) by distinct_refs.
  assert (H2 : distinct_objects (selectedShapes two_selected)) by distinct_refs.
  split; [exact H1 |]. split; [exact H2 |].
  exact (distinct_objects_kept example_env (Key Delete) two_selected H1 H2).
Defined.

(** X14 on the canvas of five shapes: the sixth and the seventh outcome of
    [Math.random] have three characters, and the pasted ids none. *)
Lemma pasted_id_lengths_witness :
  JSON_parse example_env (JSON.stringify (JArr [rectangle; rectangle])) =
    Some (JArr [rectangle; rectangle]) /\
  objects_allocated five_shapes = true /\
  map (fun s => String.length (id s))
      (added_after (List.length (shapes five_shapes))
         (final_state
            (onPaste example_env (JSON.stringify (JArr [rectangle; rectangle]))
               five_shapes))) =
  map (fun k => String.length
                  (Math_random_toString36 example_env (draws five_shapes + k)) - 7)
      (seq 0 (List.length [rectangle; rectangle])).
Proof.
  assert (H1 : JSON_parse example_env (JSON.stringify (JArr [rectangle; rectangle])) =
               Some (JArr [rectangle; rectangle])) by (vm_compute; reflexivity).
  assert (H2 : objects_allocated five_shapes = true) by (vm_compute; reflexivity).
  split; [exact H1 |]. split; [exact H2 |].
  exact (pasted_id_lengths example_env _ [rectangle; rectangle] five_shapes H1 H2).
Defined.
